(** * vcpkg_caching.py: the provisioning script, embedded and verified

    The script reads the process environment, asks the file system and the
    search path a few questions, runs external commands (the bootstrap
    script, [vcpkg fetch nuget], the NuGet client) and prints shell
    statements.  It is embedded here as a computation in a state-and-exception
    monad over

    - an operating system [OS W] with an abstract state [W], which answers
      [Path.exists], [shutil.which] and the three [subprocess] calls;
    - a chronological trace of everything the script does to the outside
      (prints, queries, spawned commands with their results);
    - the one mutable object of the script, the dict [export_env].

    A Python [str] is a sequence of Unicode code points. *)

From Stdlib Require Import String Ascii ZArith.
From stdpp Require Import base option list gmap.

Local Open Scope Z_scope.
Local Open Scope list_scope.

(** ** Python primitives *)

Abbreviation char := N.
Abbreviation str := (list N).

(** A string literal of the source, as a [str]. *)
Definition lit (s : string) : str :=
  map N_of_ascii (list_ascii_of_string s).
Arguments lit : simpl never.

Definition str_eqb (a b : str) : bool := bool_decide (a = b).

(** Truth value of an [Optional[str]]: [None] and [""] are falsy. *)
Definition truthy (v : option str) : bool :=
  match v with
  | Some (_ :: _) => true
  | _ => false
  end.

(** [needle in haystack] for strings. *)
Fixpoint startswith (s pre : str) : bool :=
  match pre, s with
  | [], _ => true
  | c :: pre', d :: s' => (c =? d)%N && startswith s' pre'
  | _ :: _, [] => false
  end.

Fixpoint str_contains (haystack needle : str) : bool :=
  startswith haystack needle ||
  match haystack with
  | [] => false
  | _ :: rest => str_contains rest needle
  end.

(** The line boundaries of [str.splitlines]: LF, VT, FF, CR, FS, GS, RS,
    NEL, LS and PS. *)
Definition is_linebreak (c : char) : bool :=
  ((c =? 10) || (c =? 11) || (c =? 12) || (c =? 13) || (c =? 28) || (c =? 29)
   || (c =? 30) || (c =? 133) || (c =? 8232) || (c =? 8233))%N.

(** [str.splitlines()] without [keepends]: [cur] holds the characters of the
    line being read, last one first.  CR LF counts as one boundary, and a
    boundary at the very end opens no further line. *)
Fixpoint splitlines_from (cur : str) (s : str) : list str :=
  match s with
  | [] => match cur with [] => [] | _ :: _ => [rev cur] end
  | c :: rest =>
      if is_linebreak c then
        rev cur ::
        match rest with
        | d :: rest' =>
            if ((c =? 13) && (d =? 10))%N then splitlines_from [] rest'
            else splitlines_from [] rest
        | [] => splitlines_from [] rest
        end
      else splitlines_from (c :: cur) rest
  end.

Definition splitlines (s : str) : list str := splitlines_from [] s.

(** The exceptions the script can end with. *)
Inductive exn : Type :=
  | SystemExit (code : Z)
  | CalledProcessError (returncode : Z)
  | OSError
  | IndexError
  | KeyError (key : str)
  | UnicodeDecodeError.

(** [seq[-1]]: the last item, or [IndexError] on an empty list. *)
Fixpoint getitem_last {A : Type} (l : list A) : A + exn :=
  match l with
  | [] => inr IndexError
  | [x] => inl x
  | _ :: l' => getitem_last l'
  end.

(** A dict that keeps insertion order: [d[k] = v] overwrites in place or
    appends, [d[k]] reads, [d.items()] is the list itself. *)
Abbreviation dict := (list (list N * list N)).

Fixpoint dict_setitem (k v : str) (d : dict) : dict :=
  match d with
  | [] => [(k, v)]
  | (k', v') :: d' =>
      if str_eqb k' k then (k', v) :: d' else (k', v') :: dict_setitem k v d'
  end.

Fixpoint dict_getitem (k : str) (d : dict) : option str :=
  match d with
  | [] => None
  | (k', v') :: d' => if str_eqb k' k then Some v' else dict_getitem k d'
  end.

(** ** The outside world *)

(** [pathlib.Path]: [Path(s)] and [p / name]. *)
Inductive Path : Type :=
  | PathOf (s : str)
  | PathJoin (p : Path) (name : str).

(** One element of an argument vector: the script passes paths and strings. *)
Inductive arg : Type :=
  | APath (p : Path)
  | AStr (s : str).

(** What a spawned command does: it runs to completion with a return code
    and the text of its standard output (decoded, as [check_output] with
    [encoding="utf8"] hands it back), or it cannot be started at all. *)
Inductive proc_result : Type :=
  | Exited (returncode : Z) (stdout : str)
  | NotStarted.

(** What comes of a command whose output is captured as text: its result,
    or nothing when the bytes it wrote are not valid UTF-8.  The decoder is
    strict, and [subprocess.run] reads the output before it looks at the
    return code. *)
Inductive captured : Type :=
  | Decoded (res : proc_result)
  | Undecodable.

Inductive Stream : Type := Stdout | Stderr.

(** The three [subprocess] entry points the script uses. *)
Inductive Api : Type := Run | CheckCall | CheckOutput.

(** The seven places of [main] that spawn a command, by source line:
    60, 69, 90, 97, 105, 128 and 135. *)
Inductive Site : Type :=
  | Bootstrap
  | FetchNuget
  | PrimaryAdd
  | PrimaryUpdate
  | SetApiKey
  | SecondaryAdd
  | SecondaryUpdate.

(** What the script does to the outside.  [EExistsFails] is a look-up that
    raised, [EGarbled] a command whose captured output could not be
    decoded. *)
Inductive event : Type :=
  | EPrint (to : Stream) (line : str)
  | EExists (p : Path) (found : bool)
  | EExistsFails (p : Path)
  | EWhich (name : str) (found : option str)
  | ESpawn (site : Site) (api : Api) (argv : list arg) (cwd : Path)
           (res : proc_result)
  | EGarbled (site : Site) (argv : list arg) (cwd : Path).

(** What the script is started with: [os.environ] and [sys.platform]. *)
Record Process : Type := {
  environ : gmap str str;
  platform : str
}.

(** The operating system, with a state [W] that spawned commands may change.
    [path_exists] answers [None] when [stat] fails with an error that
    [Path.exists] does not take for an absent file (permission denied, name
    too long); [spawn] runs a command whose output goes to the standard error
    of the script, [capture] one whose output is read and decoded. *)
Record OS (W : Type) : Type := {
  path_exists : Path -> W -> option bool;
  which : str -> W -> option str;
  spawn : list arg -> Path -> W -> proc_result * W;
  capture : list arg -> Path -> W -> captured * W;
  path_str : Path -> str
}.
Arguments path_exists {W}.
Arguments which {W}.
Arguments spawn {W}.
Arguments capture {W}.
Arguments path_str {W}.

(** ** The monad of the script *)

Record St (W : Type) : Type := {
  world : W;
  trace : list event;
  export_env : dict
}.
Arguments world {W}.
Arguments trace {W}.
Arguments export_env {W}.

Definition M (W A : Type) : Type := St W -> (A + exn) * St W.

Definition ret {W A} (a : A) : M W A := fun st => (inl a, st).

Definition bind {W A B} (m : M W A) (k : A -> M W B) : M W B :=
  fun st =>
    match m st with
    | (inl a, st') => k a st'
    | (inr e, st') => (inr e, st')
    end.

Definition raise {W A} (e : exn) : M W A := fun st => (inr e, st).

#[global] Instance M_ret {W} : MRet (M W) := fun A a => ret a.
#[global] Instance M_bind {W} : MBind (M W) := fun A B k m => bind m k.

Definition emit {W} (e : event) : M W unit :=
  fun st =>
    (inl tt, {| world := world st; trace := trace st ++ [e];
                export_env := export_env st |}).

Definition lift {W A} (r : A + exn) : M W A := fun st => (r, st).

Section Script.
Context {W : Type}.
Variable os : OS W.
Variable proc : Process.

(** [print(line)] and [print(line, file=stderr)]. *)
Definition print (to : Stream) (line : str) : M W unit :=
  emit (EPrint to line).

(** [exit(code)] raises [SystemExit]. *)
Definition py_exit {A} (code : Z) : M W A := raise (SystemExit code).

(** [p.exists()]: [True], [False], or the [OSError] of [stat] re-raised. *)
Definition exists_ (p : Path) : M W bool :=
  fun st =>
    match path_exists os p (world st) with
    | Some b =>
        (inl b, {| world := world st; trace := trace st ++ [EExists p b];
                   export_env := export_env st |})
    | None =>
        (inr OSError, {| world := world st;
                         trace := trace st ++ [EExistsFails p];
                         export_env := export_env st |})
    end.

(** [shutil.which(name)]. *)
Definition shutil_which (name : str) : M W (option str) :=
  fun st =>
    let r := which os name (world st) in
    (inl r, {| world := world st; trace := trace st ++ [EWhich name r];
               export_env := export_env st |}).

(** Run a command to completion and record it. *)
Definition popen (site : Site) (api : Api) (argv : list arg) (cwd : Path)
  : M W proc_result :=
  fun st =>
    let '(r, w') := spawn os argv cwd (world st) in
    (inl r, {| world := w';
               trace := trace st ++ [ESpawn site api argv cwd r];
               export_env := export_env st |}).

(** [subprocess.run(argv, cwd=cwd)]: the return code is not looked at. *)
Definition subprocess_run (site : Site) (argv : list arg) (cwd : Path)
  : M W unit :=
  r ← popen site Run argv cwd;
  match r with
  | Exited _ _ => ret tt
  | NotStarted => raise OSError
  end.

(** [subprocess.check_call(argv, cwd=cwd)]. *)
Definition check_call (site : Site) (argv : list arg) (cwd : Path)
  : M W unit :=
  r ← popen site CheckCall argv cwd;
  match r with
  | Exited rc _ => if (rc =? 0) then ret tt else raise (CalledProcessError rc)
  | NotStarted => raise OSError
  end.

(** Run a command with its output captured as text and record it. *)
Definition popen_text (site : Site) (argv : list arg) (cwd : Path)
  : M W captured :=
  fun st =>
    let '(r, w') := capture os argv cwd (world st) in
    (inl r, {| world := w';
               trace := trace st ++
                        [match r with
                         | Decoded res => ESpawn site CheckOutput argv cwd res
                         | Undecodable => EGarbled site argv cwd
                         end];
               export_env := export_env st |}).

(** [subprocess.check_output(argv, cwd=cwd, encoding="utf8")]: output that
    does not decode raises [UnicodeDecodeError], whatever the return
    code. *)
Definition check_output (site : Site) (argv : list arg) (cwd : Path)
  : M W str :=
  r ← popen_text site argv cwd;
  match r with
  | Decoded (Exited rc out) =>
      if (rc =? 0) then ret out else raise (CalledProcessError rc)
  | Decoded NotStarted => raise OSError
  | Undecodable => raise UnicodeDecodeError
  end.

(** [export_env[k] = v] and [export_env[k]]. *)
Definition export_set (k v : str) : M W unit :=
  fun st =>
    (inl tt, {| world := world st; trace := trace st;
                export_env := dict_setitem k v (export_env st) |}).

(** [export_env = {}] and the dict as it stands. *)
Definition export_new : M W unit :=
  fun st =>
    (inl tt, {| world := world st; trace := trace st; export_env := [] |}).

Definition export_read : M W dict := fun st => (inl (export_env st), st).

Definition export_get (k : str) : M W str :=
  fun st =>
    match dict_getitem k (export_env st) with
    | Some v => (inl v, st)
    | None => (inr (KeyError k), st)
    end.

(** [k in environ]. *)
Definition in_environ (k : str) : bool :=
  match environ proc !! k with
  | Some _ => true
  | None => false
  end.

Definition win32 : bool := str_eqb (platform proc) (lit "win32").

(** [fail(msg)], lines 10-24.  It never returns: [exit(1)] raises. *)
Definition fail {A} (msg : str) : M W A :=
  print Stderr msg ;;
  (if in_environ (lit "CI") then print Stdout (lit "exit 1")
   else print Stdout (lit "return 1")) ;;
  py_exit 1.

(** The line printed for one item of [export_env], lines 34-37. *)
Definition export_line (var val : str) : str :=
  if win32 then lit "$env:" ++ var ++ lit " = '" ++ val ++ lit "'"
  else lit "export " ++ var ++ lit "='" ++ val ++ lit "'".

(** [print_export_variables(export_env)], lines 27-37. *)
Fixpoint print_export_variables (export_env : dict) : M W unit :=
  match export_env with
  | [] => ret tt
  | (var, val) :: items =>
      print Stdout (export_line var val) ;;
      print_export_variables items
  end.

(** [main()], lines 40-147. *)
Definition main : M W unit :=
  export_new ;;
  let exe_suffix := if win32 then lit ".exe" else lit "" in
  let script_suffix := if win32 then lit ".bat" else lit ".sh" in
  vcpkg_root ←
    (let vcpkg_root := PathOf (default (lit "") (environ proc !! lit "VCPKG_ROOT")) in
     if negb (in_environ (lit "VCPKG_ROOT")) then
       match environ proc !! lit "VCPKG_INSTALLATION_ROOT" with
       | Some v =>
           export_set (lit "VCPKG_ROOT") v ;;
           r ← export_get (lit "VCPKG_ROOT");
           ret (PathOf r)
       | None =>
           fail (lit "Please set 'VCPKG_ROOT' environment variable to vcpkg root directory")
       end
     else ret vcpkg_root);
  let vcpkg_exe := PathJoin vcpkg_root (lit "vcpkg" ++ exe_suffix) in
  found ← exists_ vcpkg_exe;
  (if negb found then
     let bootstrap := PathJoin vcpkg_root (lit "bootstrap-vcpkg" ++ script_suffix) in
     found ← exists_ bootstrap;
     (if negb found then
        fail (lit "VCPKG_ROOT (" ++ path_str os vcpkg_root
              ++ lit ") does not contain bootstrap script")
      else ret tt) ;;
     check_call Bootstrap [APath bootstrap] vcpkg_root
   else ret tt) ;;
  nuget ←
    (if negb win32 then
       mono ← shutil_which (lit "mono");
       if negb (truthy mono) then
         fail (lit "Please install 'mono' .NET framework runtime")
       else ret [AStr (lit "mono")]
     else ret []);
  out ← check_output FetchNuget
           [APath vcpkg_exe; AStr (lit "fetch"); AStr (lit "nuget")] vcpkg_root;
  nuget_exe ← lift (getitem_last (splitlines out));
  let nuget := nuget ++ [AStr nuget_exe] in
  nuget_user ←
    match environ proc !! lit "VCPKG_NUGET_USER" with
    | Some (c :: s) => ret (c :: s)
    | _ => fail (lit "Please set 'VCPKG_NUGET_USER' to your GitHub username")
    end;
  nuget_token ←
    match environ proc !! lit "VCPKG_NUGET_TOKEN" with
    | Some (c :: s) => ret (c :: s)
    | _ => fail (lit "Please set 'VCPKG_NUGET_TOKEN' to your GitHub PAT with read/write package privileges")
    end;
  export_set (lit "VCPKG_BINARY_SOURCES")
             (lit "clear;nuget,GitHub,readwrite;nugettimeout,3601") ;;
  let nuget_url := lit "https://nuget.pkg.github.com/" ++ nuget_user ++ lit "/index.json" in
  subprocess_run PrimaryAdd
    (nuget ++ [AStr (lit "sources"); AStr (lit "add");
               AStr (lit "-source"); AStr nuget_url;
               AStr (lit "-storepasswordincleartext");
               AStr (lit "-name"); AStr (lit "GitHub");
               AStr (lit "-username"); AStr nuget_user;
               AStr (lit "-password"); AStr nuget_token])
    vcpkg_root ;;
  check_call PrimaryUpdate
    (nuget ++ [AStr (lit "sources"); AStr (lit "update");
               AStr (lit "-source"); AStr nuget_url;
               AStr (lit "-storepasswordincleartext");
               AStr (lit "-name"); AStr (lit "GitHub");
               AStr (lit "-username"); AStr nuget_user;
               AStr (lit "-password"); AStr nuget_token])
    vcpkg_root ;;
  check_call SetApiKey
    (nuget ++ [AStr (lit "setapikey"); AStr nuget_token;
               AStr (lit "-source"); AStr nuget_url])
    vcpkg_root ;;
  (match environ proc !! lit "VCPKG_PRIMARY_NUGET_TOKEN" with
   | Some (c :: s) =>
       let primary_token := c :: s in
       primary_owner ←
         match environ proc !! lit "VCPKG_PRIMARY_NUGET_OWNER" with
         | Some (c :: s) => ret (c :: s)
         | _ => fail (lit "Please specify 'VCPKG_PRIMARY_NUGET_OWNER' to the primary GitHub owner from which to download pre-built binaries")
         end;
       if str_eqb primary_owner nuget_user then
         print Stderr (lit "Not using primary NuGet feed because it is same as 'GitHub' feed.")
       else
         let primary_url := lit "https://nuget.pkg.github.com/" ++ primary_owner ++ lit "/index.json" in
         subprocess_run SecondaryAdd
           (nuget ++ [AStr (lit "sources"); AStr (lit "add");
                      AStr (lit "-source"); AStr primary_url;
                      AStr (lit "-storepasswordincleartext");
                      AStr (lit "-name"); AStr primary_owner;
                      AStr (lit "-username"); AStr nuget_user;
                      AStr (lit "-password"); AStr primary_token])
           vcpkg_root ;;
         check_call SecondaryUpdate
           (nuget ++ [AStr (lit "sources"); AStr (lit "update");
                      AStr (lit "-source"); AStr primary_url;
                      AStr (lit "-storepasswordincleartext");
                      AStr (lit "-name"); AStr primary_owner;
                      AStr (lit "-username"); AStr nuget_user;
                      AStr (lit "-password"); AStr primary_token])
           vcpkg_root ;;
         old ← export_get (lit "VCPKG_BINARY_SOURCES");
         export_set (lit "VCPKG_BINARY_SOURCES")
                    (old ++ lit ";nuget," ++ primary_owner ++ lit ",read")
   | _ => ret tt
   end) ;;
  export_env ← export_read;
  print_export_variables export_env.

(** The rest of [main] from line 111 on. *)
Definition main_from_secondary (vcpkg_root : Path) (nuget : list arg)
    (nuget_user : str) : M W unit :=
  (match environ proc !! lit "VCPKG_PRIMARY_NUGET_TOKEN" with
   | Some (c :: s) =>
       let primary_token := c :: s in
       primary_owner ←
         match environ proc !! lit "VCPKG_PRIMARY_NUGET_OWNER" with
         | Some (c :: s) => ret (c :: s)
         | _ => fail (lit "Please specify 'VCPKG_PRIMARY_NUGET_OWNER' to the primary GitHub owner from which to download pre-built binaries")
         end;
       if str_eqb primary_owner nuget_user then
         print Stderr (lit "Not using primary NuGet feed because it is same as 'GitHub' feed.")
       else
         let primary_url := lit "https://nuget.pkg.github.com/" ++ primary_owner ++ lit "/index.json" in
         subprocess_run SecondaryAdd
           (nuget ++ [AStr (lit "sources"); AStr (lit "add");
                      AStr (lit "-source"); AStr primary_url;
                      AStr (lit "-storepasswordincleartext");
                      AStr (lit "-name"); AStr primary_owner;
                      AStr (lit "-username"); AStr nuget_user;
                      AStr (lit "-password"); AStr primary_token])
           vcpkg_root ;;
         check_call SecondaryUpdate
           (nuget ++ [AStr (lit "sources"); AStr (lit "update");
                      AStr (lit "-source"); AStr primary_url;
                      AStr (lit "-storepasswordincleartext");
                      AStr (lit "-name"); AStr primary_owner;
                      AStr (lit "-username"); AStr nuget_user;
                      AStr (lit "-password"); AStr primary_token])
           vcpkg_root ;;
         old ← export_get (lit "VCPKG_BINARY_SOURCES");
         export_set (lit "VCPKG_BINARY_SOURCES")
                    (old ++ lit ";nuget," ++ primary_owner ++ lit ",read")
   | _ => ret tt
   end) ;;
  export_env ← export_read;
  print_export_variables export_env.

(** The rest of [main] from line 87 on. *)
Definition main_from_registration (vcpkg_root : Path) (nuget : list arg)
    (nuget_user nuget_token : str) : M W unit :=
  let nuget_url := lit "https://nuget.pkg.github.com/" ++ nuget_user ++ lit "/index.json" in
  subprocess_run PrimaryAdd
    (nuget ++ [AStr (lit "sources"); AStr (lit "add");
               AStr (lit "-source"); AStr nuget_url;
               AStr (lit "-storepasswordincleartext");
               AStr (lit "-name"); AStr (lit "GitHub");
               AStr (lit "-username"); AStr nuget_user;
               AStr (lit "-password"); AStr nuget_token])
    vcpkg_root ;;
  check_call PrimaryUpdate
    (nuget ++ [AStr (lit "sources"); AStr (lit "update");
               AStr (lit "-source"); AStr nuget_url;
               AStr (lit "-storepasswordincleartext");
               AStr (lit "-name"); AStr (lit "GitHub");
               AStr (lit "-username"); AStr nuget_user;
               AStr (lit "-password"); AStr nuget_token])
    vcpkg_root ;;
  check_call SetApiKey
    (nuget ++ [AStr (lit "setapikey"); AStr nuget_token;
               AStr (lit "-source"); AStr nuget_url])
    vcpkg_root ;;
  main_from_secondary vcpkg_root nuget nuget_user.

(** The rest of [main] from line 74 on. *)
Definition main_from_credentials (vcpkg_root : Path) (nuget : list arg)
  : M W unit :=
  nuget_user ←
    match environ proc !! lit "VCPKG_NUGET_USER" with
    | Some (c :: s) => ret (c :: s)
    | _ => fail (lit "Please set 'VCPKG_NUGET_USER' to your GitHub username")
    end;
  nuget_token ←
    match environ proc !! lit "VCPKG_NUGET_TOKEN" with
    | Some (c :: s) => ret (c :: s)
    | _ => fail (lit "Please set 'VCPKG_NUGET_TOKEN' to your GitHub PAT with read/write package privileges")
    end;
  export_set (lit "VCPKG_BINARY_SOURCES")
             (lit "clear;nuget,GitHub,readwrite;nugettimeout,3601") ;;
  main_from_registration vcpkg_root nuget nuget_user nuget_token.

(** The rest of [main] from line 69 on. *)
Definition main_from_fetch (vcpkg_root : Path) (nuget : list arg)
  : M W unit :=
  let exe_suffix := if win32 then lit ".exe" else lit "" in
  let script_suffix := if win32 then lit ".bat" else lit ".sh" in
  let vcpkg_exe := PathJoin vcpkg_root (lit "vcpkg" ++ exe_suffix) in
  out ← check_output FetchNuget
           [APath vcpkg_exe; AStr (lit "fetch"); AStr (lit "nuget")] vcpkg_root;
  nuget_exe ← lift (getitem_last (splitlines out));
  let nuget := nuget ++ [AStr nuget_exe] in
  main_from_credentials vcpkg_root nuget.

(** The rest of [main] from line 62 on. *)
Definition main_from_runtime (vcpkg_root : Path) : M W unit :=
  nuget ←
    (if negb win32 then
       mono ← shutil_which (lit "mono");
       if negb (truthy mono) then
         fail (lit "Please install 'mono' .NET framework runtime")
       else ret [AStr (lit "mono")]
     else ret []);
  main_from_fetch vcpkg_root nuget.

(** The rest of [main] from line 55 on. *)
Definition main_from_tool (vcpkg_root : Path) : M W unit :=
  let exe_suffix := if win32 then lit ".exe" else lit "" in
  let script_suffix := if win32 then lit ".bat" else lit ".sh" in
  let vcpkg_exe := PathJoin vcpkg_root (lit "vcpkg" ++ exe_suffix) in
  found ← exists_ vcpkg_exe;
  (if negb found then
     let bootstrap := PathJoin vcpkg_root (lit "bootstrap-vcpkg" ++ script_suffix) in
     found ← exists_ bootstrap;
     (if negb found then
        fail (lit "VCPKG_ROOT (" ++ path_str os vcpkg_root
              ++ lit ") does not contain bootstrap script")
      else ret tt) ;;
     check_call Bootstrap [APath bootstrap] vcpkg_root
   else ret tt) ;;
  main_from_runtime vcpkg_root.

End Script.

(** ** Running the script and observing it *)

Definition initial {W} (w : W) : St W :=
  {| world := w; trace := []; export_env := [] |}.

Definition run {W} (os : OS W) (proc : Process) (w : W)
  : (unit + exn) * St W :=
  main os proc (initial w).

(** How the run ended, what it did, and the dict it leaves behind. *)
Definition outcome {W} (os : OS W) (proc : Process) (w : W) : unit + exn :=
  fst (run os proc w).

Definition events {W} (os : OS W) (proc : Process) (w : W) : list event :=
  trace (snd (run os proc w)).

Definition exported {W} (os : OS W) (proc : Process) (w : W) : dict :=
  export_env (snd (run os proc w)).

(** The exit status of the interpreter: 0 when [main] returns, the code of
    [SystemExit], and 1 after any other uncaught exception. *)
Definition exit_status (r : unit + exn) : Z :=
  match r with
  | inl _ => 0
  | inr (SystemExit code) => code
  | inr _ => 1
  end.

Fixpoint printed (to : Stream) (tr : list event) : list str :=
  match tr with
  | [] => []
  | EPrint Stdout line :: tr' =>
      match to with Stdout => line :: printed to tr' | Stderr => printed to tr' end
  | EPrint Stderr line :: tr' =>
      match to with Stderr => line :: printed to tr' | Stdout => printed to tr' end
  | _ :: tr' => printed to tr'
  end.

(** The sites of the commands spawned, in order. *)
Fixpoint spawned (tr : list event) : list Site :=
  match tr with
  | [] => []
  | ESpawn site _ _ _ _ :: tr' => site :: spawned tr'
  | EGarbled site _ _ :: tr' => site :: spawned tr'
  | _ :: tr' => spawned tr'
  end.

(** The shell statement [fail] prints: it depends on the CI flag only. *)
Definition shell_statement (proc : Process) : str :=
  if in_environ proc (lit "CI") then lit "exit 1" else lit "return 1".

Definition failed {W} (proc : Process) (msg : str) (st : St W)
  : St W :=
  {| world := world st;
     trace := trace st ++ [EPrint Stderr msg; EPrint Stdout (shell_statement proc)];
     export_env := export_env st |}.

(** ** The runs of [main] *)

Section Runs.
Context {W : Type}.
Variable os : OS W.
Variable proc : Process.

(** The diagnostics of the script. *)
Definition msg_root : str :=
  lit "Please set 'VCPKG_ROOT' environment variable to vcpkg root directory".
Definition msg_bootstrap (root : Path) : str :=
  lit "VCPKG_ROOT (" ++ path_str os root ++ lit ") does not contain bootstrap script".
Definition msg_mono : str :=
  lit "Please install 'mono' .NET framework runtime".
Definition msg_user : str :=
  lit "Please set 'VCPKG_NUGET_USER' to your GitHub username".
Definition msg_token : str :=
  lit "Please set 'VCPKG_NUGET_TOKEN' to your GitHub PAT with read/write package privileges".
Definition msg_owner : str :=
  lit "Please specify 'VCPKG_PRIMARY_NUGET_OWNER' to the primary GitHub owner from which to download pre-built binaries".
Definition msg_same_feed : str :=
  lit "Not using primary NuGet feed because it is same as 'GitHub' feed.".

(** What a call of [fail] leaves in the trace. *)
Definition fail_events (msg : str) : list event :=
  [EPrint Stderr msg; EPrint Stdout (shell_statement proc)].

(** What [print_export_variables] leaves in the trace. *)
Definition export_events (d : dict) : list event :=
  map (fun '(var, val) => EPrint Stdout (export_line proc var val)) d.

(** The paths and argument vectors the script builds. *)
Definition vcpkg_exe_of (root : Path) : Path :=
  PathJoin root (lit "vcpkg" ++ (if win32 proc then lit ".exe" else lit "")).
Definition bootstrap_of (root : Path) : Path :=
  PathJoin root (lit "bootstrap-vcpkg" ++ (if win32 proc then lit ".bat" else lit ".sh")).
Definition fetch_argv (root : Path) : list arg :=
  [APath (vcpkg_exe_of root); AStr (lit "fetch"); AStr (lit "nuget")].
Definition feed_url (owner : str) : str :=
  lit "https://nuget.pkg.github.com/" ++ owner ++ lit "/index.json".
Definition sources_argv (nuget : list arg) (verb url name user password : str)
  : list arg :=
  nuget ++ [AStr (lit "sources"); AStr verb;
            AStr (lit "-source"); AStr url;
            AStr (lit "-storepasswordincleartext");
            AStr (lit "-name"); AStr name;
            AStr (lit "-username"); AStr user;
            AStr (lit "-password"); AStr password].
Definition setapikey_argv (nuget : list arg) (token url : str) : list arg :=
  nuget ++ [AStr (lit "setapikey"); AStr token; AStr (lit "-source"); AStr url].

Definition binary_sources : str := lit "VCPKG_BINARY_SOURCES".
Definition template : str := lit "clear;nuget,GitHub,readwrite;nugettimeout,3601".
Definition read_segment (owner : str) : str :=
  lit ";nuget," ++ owner ++ lit ",read".

(** The exception a mandatory command ends the script with, if any. *)
Definition fatal (res : proc_result) : option exn :=
  match res with
  | Exited rc _ => if rc =? 0 then None else Some (CalledProcessError rc)
  | NotStarted => Some OSError
  end.

(** Lines 46-53 passed: the root directory and the dict so far. *)
Inductive root_resolved : Path -> dict -> Prop :=
  | root_primary r :
      environ proc !! lit "VCPKG_ROOT" = Some r ->
      root_resolved (PathOf r) []
  | root_fallback v :
      environ proc !! lit "VCPKG_ROOT" = None ->
      environ proc !! lit "VCPKG_INSTALLATION_ROOT" = Some v ->
      root_resolved (PathOf v) [(lit "VCPKG_ROOT", v)].

(** Lines 55-60 passed: the tool is there, or has been bootstrapped. *)
Inductive tool_ready (root : Path) : list event -> Prop :=
  | tool_found :
      tool_ready root [EExists (vcpkg_exe_of root) true]
  | tool_bootstrapped out :
      tool_ready root
        [EExists (vcpkg_exe_of root) false;
         EExists (bootstrap_of root) true;
         ESpawn Bootstrap CheckCall [APath (bootstrap_of root)] root (Exited 0 out)].

(** Lines 62-67 passed: the prefix of every NuGet command. *)
Inductive runtime_ready : list arg -> list event -> Prop :=
  | runtime_windows :
      win32 proc = true -> runtime_ready [] []
  | runtime_mono m :
      win32 proc = false -> truthy m = true ->
      runtime_ready [AStr (lit "mono")] [EWhich (lit "mono") m].

(** Lines 46-72 passed: the NuGet client is known. *)
Inductive client_ready : Path -> dict -> list arg -> list event -> Prop :=
  | client_fetched root d t1 pre t2 out nuget_exe :
      root_resolved root d -> tool_ready root t1 -> runtime_ready pre t2 ->
      getitem_last (splitlines out) = inl nuget_exe ->
      client_ready root d (pre ++ [AStr nuget_exe])
        (t1 ++ t2 ++
         [ESpawn FetchNuget CheckOutput (fetch_argv root) root (Exited 0 out)]).

(** Lines 74-85 passed: the credentials are validated. *)
Inductive credentials : Path -> dict -> list arg -> str -> str -> list event
                        -> Prop :=
  | credentials_valid root d nuget t user token :
      client_ready root d nuget t ->
      environ proc !! lit "VCPKG_NUGET_USER" = Some user -> user <> [] ->
      environ proc !! lit "VCPKG_NUGET_TOKEN" = Some token -> token <> [] ->
      credentials root (dict_setitem binary_sources template d) nuget
        user token t.

(** Lines 74-109 passed: the primary feed is registered. *)
Inductive primary_registered : Path -> dict -> list arg -> str -> list event
                               -> Prop :=
  | primary_done root d nuget user token t rc out1 out2 out3 :
      credentials root d nuget user token t ->
      primary_registered root d nuget user
        (t ++
         [ESpawn PrimaryAdd Run
            (sources_argv nuget (lit "add") (feed_url user) (lit "GitHub") user token)
            root (Exited rc out1);
          ESpawn PrimaryUpdate CheckCall
            (sources_argv nuget (lit "update") (feed_url user) (lit "GitHub") user token)
            root (Exited 0 out2);
          ESpawn SetApiKey CheckCall
            (setapikey_argv nuget token (feed_url user)) root (Exited 0 out3)]).

(** Every way [main] can go: how it ends, its trace, and the dict it
    leaves. *)
Inductive Runs : unit + exn -> list event -> dict -> Prop :=
  | run_no_root :
      environ proc !! lit "VCPKG_ROOT" = None ->
      environ proc !! lit "VCPKG_INSTALLATION_ROOT" = None ->
      Runs (inr (SystemExit 1)) (fail_events msg_root) []
  | run_tool_lookup_fails root d :
      root_resolved root d ->
      Runs (inr OSError) [EExistsFails (vcpkg_exe_of root)] d
  | run_bootstrap_lookup_fails root d :
      root_resolved root d ->
      Runs (inr OSError)
        [EExists (vcpkg_exe_of root) false; EExistsFails (bootstrap_of root)] d
  | run_no_bootstrap root d :
      root_resolved root d ->
      Runs (inr (SystemExit 1))
        ([EExists (vcpkg_exe_of root) false; EExists (bootstrap_of root) false]
         ++ fail_events (msg_bootstrap root)) d
  | run_bootstrap_fails root d res e :
      root_resolved root d -> fatal res = Some e ->
      Runs (inr e)
        [EExists (vcpkg_exe_of root) false; EExists (bootstrap_of root) true;
         ESpawn Bootstrap CheckCall [APath (bootstrap_of root)] root res] d
  | run_no_runtime root d t1 m :
      root_resolved root d -> tool_ready root t1 ->
      win32 proc = false -> truthy m = false ->
      Runs (inr (SystemExit 1))
        (t1 ++ [EWhich (lit "mono") m] ++ fail_events msg_mono) d
  | run_fetch_fails root d t1 pre t2 res e :
      root_resolved root d -> tool_ready root t1 -> runtime_ready pre t2 ->
      fatal res = Some e ->
      Runs (inr e)
        (t1 ++ t2 ++
         [ESpawn FetchNuget CheckOutput (fetch_argv root) root res]) d
  | run_fetch_garbled root d t1 pre t2 :
      root_resolved root d -> tool_ready root t1 -> runtime_ready pre t2 ->
      Runs (inr UnicodeDecodeError)
        (t1 ++ t2 ++ [EGarbled FetchNuget (fetch_argv root) root]) d
  | run_fetch_empty root d t1 pre t2 :
      root_resolved root d -> tool_ready root t1 -> runtime_ready pre t2 ->
      Runs (inr IndexError)
        (t1 ++ t2 ++
         [ESpawn FetchNuget CheckOutput (fetch_argv root) root (Exited 0 [])]) d
  | run_no_user root d nuget t :
      client_ready root d nuget t ->
      truthy (environ proc !! lit "VCPKG_NUGET_USER") = false ->
      Runs (inr (SystemExit 1)) (t ++ fail_events msg_user) d
  | run_no_token root d nuget t :
      client_ready root d nuget t ->
      truthy (environ proc !! lit "VCPKG_NUGET_USER") = true ->
      truthy (environ proc !! lit "VCPKG_NUGET_TOKEN") = false ->
      Runs (inr (SystemExit 1)) (t ++ fail_events msg_token) d
  | run_add_not_started root d nuget user token t :
      credentials root d nuget user token t ->
      Runs (inr OSError)
        (t ++
         [ESpawn PrimaryAdd Run
            (sources_argv nuget (lit "add") (feed_url user) (lit "GitHub") user token)
            root NotStarted]) d
  | run_update_fails root d nuget user token t rc out1 res e :
      credentials root d nuget user token t -> fatal res = Some e ->
      Runs (inr e)
        (t ++
         [ESpawn PrimaryAdd Run
            (sources_argv nuget (lit "add") (feed_url user) (lit "GitHub") user token)
            root (Exited rc out1);
          ESpawn PrimaryUpdate CheckCall
            (sources_argv nuget (lit "update") (feed_url user) (lit "GitHub") user token)
            root res]) d
  | run_setapikey_fails root d nuget user token t rc out1 out2 res e :
      credentials root d nuget user token t -> fatal res = Some e ->
      Runs (inr e)
        (t ++
         [ESpawn PrimaryAdd Run
            (sources_argv nuget (lit "add") (feed_url user) (lit "GitHub") user token)
            root (Exited rc out1);
          ESpawn PrimaryUpdate CheckCall
            (sources_argv nuget (lit "update") (feed_url user) (lit "GitHub") user token)
            root (Exited 0 out2);
          ESpawn SetApiKey CheckCall
            (setapikey_argv nuget token (feed_url user)) root res]) d
  | run_done root d nuget user t :
      primary_registered root d nuget user t ->
      truthy (environ proc !! lit "VCPKG_PRIMARY_NUGET_TOKEN") = false ->
      Runs (inl tt) (t ++ export_events d) d
  | run_no_owner root d nuget user t :
      primary_registered root d nuget user t ->
      truthy (environ proc !! lit "VCPKG_PRIMARY_NUGET_TOKEN") = true ->
      truthy (environ proc !! lit "VCPKG_PRIMARY_NUGET_OWNER") = false ->
      Runs (inr (SystemExit 1)) (t ++ fail_events msg_owner) d
  | run_same_feed root d nuget user t :
      primary_registered root d nuget user t ->
      truthy (environ proc !! lit "VCPKG_PRIMARY_NUGET_TOKEN") = true ->
      environ proc !! lit "VCPKG_PRIMARY_NUGET_OWNER" = Some user ->
      Runs (inl tt)
        (t ++ [EPrint Stderr msg_same_feed] ++ export_events d) d
  | run_secondary_add_not_started root d nuget user t ptoken owner :
      primary_registered root d nuget user t ->
      environ proc !! lit "VCPKG_PRIMARY_NUGET_TOKEN" = Some ptoken -> ptoken <> [] ->
      environ proc !! lit "VCPKG_PRIMARY_NUGET_OWNER" = Some owner -> owner <> [] ->
      owner <> user ->
      Runs (inr OSError)
        (t ++
         [ESpawn SecondaryAdd Run
            (sources_argv nuget (lit "add") (feed_url owner) owner user ptoken)
            root NotStarted]) d
  | run_secondary_update_fails root d nuget user t ptoken owner rc out1 res e :
      primary_registered root d nuget user t ->
      environ proc !! lit "VCPKG_PRIMARY_NUGET_TOKEN" = Some ptoken -> ptoken <> [] ->
      environ proc !! lit "VCPKG_PRIMARY_NUGET_OWNER" = Some owner -> owner <> [] ->
      owner <> user -> fatal res = Some e ->
      Runs (inr e)
        (t ++
         [ESpawn SecondaryAdd Run
            (sources_argv nuget (lit "add") (feed_url owner) owner user ptoken)
            root (Exited rc out1);
          ESpawn SecondaryUpdate CheckCall
            (sources_argv nuget (lit "update") (feed_url owner) owner user ptoken)
            root res]) d
  | run_done_secondary root d nuget user t ptoken owner rc out1 out2 :
      primary_registered root d nuget user t ->
      environ proc !! lit "VCPKG_PRIMARY_NUGET_TOKEN" = Some ptoken -> ptoken <> [] ->
      environ proc !! lit "VCPKG_PRIMARY_NUGET_OWNER" = Some owner -> owner <> [] ->
      owner <> user ->
      let d' := dict_setitem binary_sources (template ++ read_segment owner) d in
      Runs (inl tt)
        (t ++
         [ESpawn SecondaryAdd Run
            (sources_argv nuget (lit "add") (feed_url owner) owner user ptoken)
            root (Exited rc out1);
          ESpawn SecondaryUpdate CheckCall
            (sources_argv nuget (lit "update") (feed_url owner) owner user ptoken)
            root (Exited 0 out2)]
         ++ export_events d') d'.

(** Every answer in a trace is one the operating system gave. *)
Definition answered (e : event) : Prop :=
  match e with
  | EPrint _ _ => True
  | EExists p found => exists w, path_exists os p w = Some found
  | EExistsFails p => exists w, path_exists os p w = None
  | EWhich name found => exists w, which os name w = found
  | ESpawn _ CheckOutput argv cwd res =>
      exists w w', capture os argv cwd w = (Decoded res, w')
  | ESpawn _ _ argv cwd res => exists w w', spawn os argv cwd w = (res, w')
  | EGarbled _ argv cwd => exists w w', capture os argv cwd w = (Undecodable, w')
  end.

End Runs.

(** A run is good when it has one of the shapes of [Runs] and all its
    answers come from the operating system. *)
Definition Good {W} (os : OS W) (proc : Process) (res : (unit + exn) * St W)
  : Prop :=
  Runs os proc res.1 (trace res.2) (export_env res.2)
  /\ Forall (answered os) (trace res.2).

(** ** What the properties speak about *)

(** The run ended through [fail]: one diagnostic on the error stream, the
    shell statement on standard output, and [SystemExit(1)]. *)
Definition through_fail (proc : Process) (r : unit + exn) (tr : list event)
  : Prop :=
  r = inr (SystemExit 1)
  /\ (exists msg, printed Stderr tr = [msg])
  /\ printed Stdout tr = [shell_statement proc].

(** The diagnostics [fail] is called with. *)
Definition diagnostic {W} (os : OS W) (msg : str) : Prop :=
  In msg [msg_root; msg_mono; msg_user; msg_token; msg_owner]
  \/ exists root, msg = msg_bootstrap os root.




(** The values a NuGet command was given come from validated variables. *)
Definition credentialed (proc : Process) (e : event) : Prop :=
  match e with
  | ESpawn PrimaryAdd _ argv _ _ =>
      exists nuget user token,
        environ proc !! lit "VCPKG_NUGET_USER" = Some user /\ user <> [] /\
        environ proc !! lit "VCPKG_NUGET_TOKEN" = Some token /\ token <> [] /\
        argv = sources_argv nuget (lit "add") (feed_url user) (lit "GitHub") user token
  | ESpawn PrimaryUpdate _ argv _ _ =>
      exists nuget user token,
        environ proc !! lit "VCPKG_NUGET_USER" = Some user /\ user <> [] /\
        environ proc !! lit "VCPKG_NUGET_TOKEN" = Some token /\ token <> [] /\
        argv = sources_argv nuget (lit "update") (feed_url user) (lit "GitHub") user token
  | ESpawn SetApiKey _ argv _ _ =>
      exists nuget user token,
        environ proc !! lit "VCPKG_NUGET_USER" = Some user /\ user <> [] /\
        environ proc !! lit "VCPKG_NUGET_TOKEN" = Some token /\ token <> [] /\
        argv = setapikey_argv nuget token (feed_url user)
  | ESpawn SecondaryAdd _ argv _ _ =>
      exists nuget user owner ptoken,
        environ proc !! lit "VCPKG_NUGET_USER" = Some user /\ user <> [] /\
        environ proc !! lit "VCPKG_PRIMARY_NUGET_OWNER" = Some owner /\ owner <> [] /\
        environ proc !! lit "VCPKG_PRIMARY_NUGET_TOKEN" = Some ptoken /\ ptoken <> [] /\
        argv = sources_argv nuget (lit "add") (feed_url owner) owner user ptoken
  | ESpawn SecondaryUpdate _ argv _ _ =>
      exists nuget user owner ptoken,
        environ proc !! lit "VCPKG_NUGET_USER" = Some user /\ user <> [] /\
        environ proc !! lit "VCPKG_PRIMARY_NUGET_OWNER" = Some owner /\ owner <> [] /\
        environ proc !! lit "VCPKG_PRIMARY_NUGET_TOKEN" = Some ptoken /\ ptoken <> [] /\
        argv = sources_argv nuget (lit "update") (feed_url owner) owner user ptoken
  | _ => True
  end.

(** The commands of the primary feed in a trace, in order. *)
Definition is_primary (e : event) : bool :=
  match e with
  | ESpawn PrimaryAdd _ _ _ _ | ESpawn PrimaryUpdate _ _ _ _
  | ESpawn SetApiKey _ _ _ _ => true
  | _ => false
  end.

Definition primary_calls (tr : list event) : list event :=
  List.filter is_primary tr.

(** The required variables, and what it means for one to be missing. *)
Inductive Required : Type :=
  | RootDirectory
  | Username
  | Token
  | SecondaryOwner.

Definition variable_of (v : Required) : str :=
  match v with
  | RootDirectory => lit "VCPKG_ROOT"
  | Username => lit "VCPKG_NUGET_USER"
  | Token => lit "VCPKG_NUGET_TOKEN"
  | SecondaryOwner => lit "VCPKG_PRIMARY_NUGET_OWNER"
  end.

Definition missing (proc : Process) (v : Required) : Prop :=
  match v with
  | RootDirectory =>
      environ proc !! lit "VCPKG_ROOT" = None
      /\ environ proc !! lit "VCPKG_INSTALLATION_ROOT" = None
  | Username => truthy (environ proc !! lit "VCPKG_NUGET_USER") = false
  | Token => truthy (environ proc !! lit "VCPKG_NUGET_TOKEN") = false
  | SecondaryOwner =>
      truthy (environ proc !! lit "VCPKG_PRIMARY_NUGET_TOKEN") = true
      /\ truthy (environ proc !! lit "VCPKG_PRIMARY_NUGET_OWNER") = false
  end.

(** The fetch of the NuGet client went through, lines 69-72. *)
Definition fetched (tr : list event) : Prop :=
  exists argv cwd out,
    In (ESpawn FetchNuget CheckOutput argv cwd (Exited 0 out)) tr /\ out <> [].

(** The primary feed is registered, lines 90-109. *)
Definition api_key_set (tr : list event) : Prop :=
  exists argv cwd out, In (ESpawn SetApiKey CheckCall argv cwd (Exited 0 out)) tr.

(** The run got as far as checking the variable. *)
Definition checked (proc : Process) (v : Required) (tr : list event) : Prop :=
  match v with
  | RootDirectory => True
  | Username => fetched tr
  | Token =>
      fetched tr /\ truthy (environ proc !! lit "VCPKG_NUGET_USER") = true
  | SecondaryOwner => api_key_set tr
  end.

(** Every path the event touches lies in [root]. *)
Definition under (root : Path) (p : Path) : Prop :=
  exists name, p = PathJoin root name.

Definition rooted_at (root : Path) (e : event) : Prop :=
  match e with
  | EExists p _ => under root p
  | EExistsFails p => under root p
  | ESpawn _ _ argv cwd _ =>
      cwd = root /\ forall p, In (APath p) argv -> under root p
  | EGarbled _ argv cwd =>
      cwd = root /\ forall p, In (APath p) argv -> under root p
  | _ => True
  end.


(** ** More to speak about *)

(** The shapes [export_env] can have: at most the root variable, first, and
    the binary-cache variable. *)
Definition export_env_shapes (proc : Process) (d : dict) : Prop :=
  exists roots sources,
    d = roots ++ sources
    /\ (roots = []
        \/ exists v, environ proc !! lit "VCPKG_ROOT" = None
                     /\ environ proc !! lit "VCPKG_INSTALLATION_ROOT" = Some v
                     /\ roots = [(lit "VCPKG_ROOT", v)])
    /\ (sources = []
        \/ sources = [(binary_sources, template)]
        \/ exists owner,
             environ proc !! lit "VCPKG_PRIMARY_NUGET_OWNER" = Some owner
             /\ sources = [(binary_sources, template ++ read_segment owner)]).

(** The commands of the NuGet client, lines 90-141. *)
Definition nuget_site (site : Site) : bool :=
  match site with
  | Bootstrap | FetchNuget => false
  | _ => true
  end.

(** What [nuget] holds before the client is fetched, lines 62-67. *)
Definition runtime_prefix (proc : Process) : list arg :=
  if win32 proc then [] else [AStr (lit "mono")].

(** The commands of the script in program order. *)
Definition all_sites : list Site :=
  [Bootstrap; FetchNuget; PrimaryAdd; PrimaryUpdate; SetApiKey;
   SecondaryAdd; SecondaryUpdate].

(** The commands of the secondary feed in a trace, in order. *)
Definition is_secondary (e : event) : bool :=
  match e with
  | ESpawn SecondaryAdd _ _ _ _ | ESpawn SecondaryUpdate _ _ _ _ => true
  | _ => false
  end.

Definition secondary_calls (tr : list event) : list event :=
  List.filter is_secondary tr.

(** A text without line boundaries. *)
Definition one_line (s : str) : Prop :=
  Forall (fun c => is_linebreak c = false) s.

(** What follows a line boundary [c]: CR LF is one boundary. *)
Definition after_boundary (c : char) (rest : str) : str :=
  match rest with
  | d :: rest' => if ((c =? 13) && (d =? 10))%N then rest' else rest
  | [] => rest
  end.

(** ** Concrete worlds *)

Module Worlds.

Definition nl : str := [10%N].

Fixpoint render (p : Path) : str :=
  match p with
  | PathOf s => s
  | PathJoin p' name => render p' ++ lit "/" ++ name
  end.

Definition has_word (w : str) (argv : list arg) : bool :=
  existsb (fun a => match a with AStr s => str_eqb s w | APath _ => false end) argv.

Definition nuget_path : str := lit "/opt/vcpkg/downloads/tools/nuget.exe".

(** Everything is in place and every command succeeds. *)
Definition os_ok : OS unit :=
  {| path_exists := fun _ _ => Some true;
     which := fun _ _ => Some (lit "/usr/bin/mono");
     spawn := fun _ _ w => (Exited 0 (nuget_path ++ nl), w);
     capture := fun _ _ w => (Decoded (Exited 0 (nuget_path ++ nl)), w);
     path_str := render |}.

(** As [os_ok], but [sources update] exits with 1. *)
Definition os_update_fails : OS unit :=
  {| path_exists := fun _ _ => Some true;
     which := fun _ _ => Some (lit "/usr/bin/mono");
     spawn := fun argv _ w =>
                if has_word (lit "update") argv then (Exited 1 [], w)
                else (Exited 0 (nuget_path ++ nl), w);
     capture := fun _ _ w => (Decoded (Exited 0 (nuget_path ++ nl)), w);
     path_str := render |}.

(** As [os_ok], but [mono] is not on the search path. *)
Definition os_no_mono : OS unit :=
  {| path_exists := fun _ _ => Some true;
     which := fun _ _ => None;
     spawn := fun _ _ w => (Exited 0 (nuget_path ++ nl), w);
     capture := fun _ _ w => (Decoded (Exited 0 (nuget_path ++ nl)), w);
     path_str := render |}.

(** As [os_ok], but [vcpkg fetch nuget] prints nothing. *)
Definition os_fetch_silent : OS unit :=
  {| path_exists := fun _ _ => Some true;
     which := fun _ _ => Some (lit "/usr/bin/mono");
     spawn := fun _ _ w => (Exited 0 (nuget_path ++ nl), w);
     capture := fun _ _ w => (Decoded (Exited 0 []), w);
     path_str := render |}.

Definition env_of (l : list (string * string)) : gmap (list N) (list N) :=
  list_to_map (map (fun '(k, v) => (lit k, lit v)) l).

Definition linux (l : list (string * string)) : Process :=
  {| environ := env_of l; platform := lit "linux" |}.

Definition linux_primary : Process :=
  linux [("VCPKG_ROOT", "/opt/vcpkg");
         ("VCPKG_NUGET_USER", "octocat");
         ("VCPKG_NUGET_TOKEN", "ghp_1")]%string.

Definition linux_fallback : Process :=
  linux [("VCPKG_INSTALLATION_ROOT", "/usr/local/share/vcpkg");
         ("VCPKG_NUGET_USER", "octocat");
         ("VCPKG_NUGET_TOKEN", "ghp_1")]%string.

Definition linux_empty_root : Process :=
  linux [("VCPKG_ROOT", "");
         ("VCPKG_NUGET_USER", "octocat");
         ("VCPKG_NUGET_TOKEN", "ghp_1")]%string.

Definition linux_no_user : Process :=
  linux [("VCPKG_ROOT", "/opt/vcpkg")]%string.

Definition linux_same_owner : Process :=
  linux [("VCPKG_ROOT", "/opt/vcpkg");
         ("VCPKG_NUGET_USER", "octocat");
         ("VCPKG_NUGET_TOKEN", "ghp_1");
         ("VCPKG_PRIMARY_NUGET_OWNER", "octocat")]%string.


Definition linux_no_owner : Process :=
  linux [("VCPKG_ROOT", "/opt/vcpkg");
         ("VCPKG_NUGET_USER", "octocat");
         ("VCPKG_NUGET_TOKEN", "ghp_1");
         ("VCPKG_PRIMARY_NUGET_TOKEN", "ghp_2")]%string.

(** The tool is not built yet, the bootstrap script is there. *)
Definition os_bootstrap : OS unit :=
  {| path_exists := fun p _ =>
                      match p with
                      | PathJoin _ name => Some (negb (str_eqb name (lit "vcpkg")))
                      | PathOf _ => Some true
                      end;
     which := fun _ _ => Some (lit "/usr/bin/mono");
     spawn := fun _ _ w => (Exited 0 (nuget_path ++ nl), w);
     capture := fun _ _ w => (Decoded (Exited 0 (nuget_path ++ nl)), w);
     path_str := render |}.

(** As [os_ok], but [vcpkg fetch nuget] reports progress before the path. *)
Definition os_fetch_verbose : OS unit :=
  {| path_exists := fun _ _ => Some true;
     which := fun _ _ => Some (lit "/usr/bin/mono");
     spawn := fun _ _ w => (Exited 0 [], w);
     capture := fun _ _ w =>
                  (Decoded (Exited 0 (lit "Downloading nuget..." ++ nl
                                      ++ nuget_path ++ nl)), w);
     path_str := render |}.

Definition windows (l : list (string * string)) : Process :=
  {| environ := env_of l; platform := lit "win32" |}.

Definition windows_primary : Process :=
  windows [("VCPKG_ROOT", "C:/vcpkg");
           ("VCPKG_NUGET_USER", "octocat");
           ("VCPKG_NUGET_TOKEN", "ghp_1")]%string.

Definition linux_both_roots : Process :=
  linux [("VCPKG_ROOT", "/opt/vcpkg");
         ("VCPKG_INSTALLATION_ROOT", "/usr/local/share/vcpkg");
         ("VCPKG_NUGET_USER", "octocat");
         ("VCPKG_NUGET_TOKEN", "ghp_1")]%string.

Definition linux_secondary : Process :=
  linux [("VCPKG_INSTALLATION_ROOT", "/usr/local/share/vcpkg");
         ("VCPKG_NUGET_USER", "octocat");
         ("VCPKG_NUGET_TOKEN", "ghp_1");
         ("VCPKG_PRIMARY_NUGET_OWNER", "upstream");
         ("VCPKG_PRIMARY_NUGET_TOKEN", "ghp_2")]%string.

(** As [os_ok], but what [vcpkg fetch nuget] prints is not valid UTF-8. *)
Definition os_fetch_garbled : OS unit :=
  {| path_exists := fun _ _ => Some true;
     which := fun _ _ => Some (lit "/usr/bin/mono");
     spawn := fun _ _ w => (Exited 0 (nuget_path ++ nl), w);
     capture := fun _ _ w => (Undecodable, w);
     path_str := render |}.

(** As [os_ok], but the root directory cannot be searched. *)
Definition os_lookup_denied : OS unit :=
  {| path_exists := fun _ _ => None;
     which := fun _ _ => Some (lit "/usr/bin/mono");
     spawn := fun _ _ w => (Exited 0 (nuget_path ++ nl), w);
     capture := fun _ _ w => (Decoded (Exited 0 (nuget_path ++ nl)), w);
     path_str := render |}.


End Worlds.

(** ** Symbolic execution *)

Lemma fail_run {W A} (proc : Process) (msg : str) (st : St W) :
  fail (A := A) proc msg st = (inr (SystemExit 1), failed proc msg st).
Proof.
  unfold fail, failed, shell_statement, print, emit, py_exit, raise.
  unfold mbind, M_bind, bind.
  destruct (in_environ proc (lit "CI")); cbn; rewrite <- app_assoc; reflexivity.
Qed.

Lemma bind_fail_run {W A B} (proc : Process) (msg : str) (k : A -> M W B)
    (st : St W) :
  bind (fail proc msg) k st = (inr (SystemExit 1), failed proc msg st).
Proof. unfold bind. rewrite fail_run. reflexivity. Qed.

Lemma bind_assoc_run {W A B C} (m : M W A) (f : A -> M W B) (g : B -> M W C)
    (st : St W) :
  bind (bind m f) g st = bind m (fun x => bind (f x) g) st.
Proof.
  unfold bind. destruct (m st) as [[a|e] st']; reflexivity.
Qed.

Lemma bind_popen_run {W A} (os : OS W) site api argv cwd (k : proc_result -> M W A)
    (st : St W) :
  bind (popen os site api argv cwd) k st =
  let '(r, w') := spawn os argv cwd (world st) in
  k r {| world := w'; trace := trace st ++ [ESpawn site api argv cwd r];
         export_env := export_env st |}.
Proof.
  unfold bind, popen. destruct (spawn os argv cwd (world st)); reflexivity.
Qed.

Lemma bind_popen_text_run {W A} (os : OS W) site argv cwd
    (k : captured -> M W A) (st : St W) :
  bind (popen_text os site argv cwd) k st =
  let '(r, w') := capture os argv cwd (world st) in
  k r {| world := w';
         trace := trace st ++
                  [match r with
                   | Decoded res => ESpawn site CheckOutput argv cwd res
                   | Undecodable => EGarbled site argv cwd
                   end];
         export_env := export_env st |}.
Proof.
  unfold bind, popen_text. destruct (capture os argv cwd (world st)); reflexivity.
Qed.

Lemma bind_exists_run {W A} (os : OS W) (p : Path) (k : bool -> M W A)
    (st : St W) :
  bind (exists_ os p) k st =
  match path_exists os p (world st) with
  | Some b =>
      k b {| world := world st; trace := trace st ++ [EExists p b];
             export_env := export_env st |}
  | None =>
      (inr OSError, {| world := world st; trace := trace st ++ [EExistsFails p];
                       export_env := export_env st |})
  end.
Proof.
  unfold bind, exists_. destruct (path_exists os p (world st)); reflexivity.
Qed.

Lemma ret_run {W A} (a : A) (st : St W) : ret a st = (inl a, st).
Proof. reflexivity. Qed.

Lemma raise_run {W A} (e : exn) (st : St W) : raise (A := A) e st = (inr e, st).
Proof. reflexivity. Qed.

Lemma bind_export_get_run {W A} (k : str) (f : str -> M W A) (st : St W) :
  bind (export_get k) f st =
  match dict_getitem k (export_env st) with
  | Some v => f v st
  | None => (inr (KeyError k), st)
  end.
Proof.
  unfold bind, export_get. destruct (dict_getitem k (export_env st)); reflexivity.
Qed.

Lemma str_eqb_refl (a : str) : str_eqb a a = true.
Proof. unfold str_eqb. apply bool_decide_eq_true. reflexivity. Qed.

(** The two keys of [export_env] are different strings. *)
Lemma export_keys_differ :
  str_eqb (lit "VCPKG_ROOT") (lit "VCPKG_BINARY_SOURCES") = false.
Proof. vm_compute. reflexivity. Qed.

(** Facts the case analysis leaves behind, in usable form. *)
Lemma getitem_last_inr {A} (l : list A) (e : exn) :
  getitem_last l = inr e -> l = [] /\ e = IndexError.
Proof.
  induction l as [|x [|y l'] IH]; cbn; intros H.
  - injection H as <-. auto.
  - discriminate.
  - destruct (IH H) as [? _]. discriminate.
Qed.

Lemma splitlines_from_nil (cur s : str) :
  splitlines_from cur s = [] -> cur = [] /\ s = [].
Proof.
  revert cur. induction s as [|c rest IH]; intros cur; cbn.
  - destruct cur; [auto | discriminate].
  - destruct (is_linebreak c); [discriminate |].
    intros H. apply IH in H as [? _]. discriminate.
Qed.

Lemma splitlines_nil (s : str) : splitlines s = [] <-> s = [].
Proof.
  split.
  - intros H. apply splitlines_from_nil in H. tauto.
  - intros ->. reflexivity.
Qed.

Lemma str_eqb_eq (a b : str) : str_eqb a b = true <-> a = b.
Proof. unfold str_eqb. apply bool_decide_eq_true. Qed.

Lemma str_eqb_neq (a b : str) : str_eqb a b = false <-> a <> b.
Proof. unfold str_eqb. apply bool_decide_eq_false. Qed.

Ltac tidy :=
  repeat match goal with
  | H : getitem_last _ = inr _ |- _ =>
      apply getitem_last_inr in H as [H ->]; apply splitlines_nil in H;
      try match type of H with ?x = [] => subst x end
  | H : (?rc =? 0) = true |- _ => apply Z.eqb_eq in H; subst rc
  | H : (_ =? 0) = false |- _ => apply Z.eqb_neq in H
  | H : str_eqb _ ?b = true |- _ => apply str_eqb_eq in H; try subst b
  | H : str_eqb _ _ = false |- _ => apply str_eqb_neq in H
  end.

(** The scrutinee a stuck computation waits for. *)
Ltac stuck T :=
  lazymatch T with
  | match ?x with _ => _ end => stuck x
  | (match ?x with _ => _ end) _ => stuck x
  | bind ?m _ _ => stuck m
  | negb ?b => stuck b
  | _ => T
  end.

Ltac monad_red H :=
  repeat (progress (
    cbn [bind ret raise lift emit print py_exit
         shutil_which export_set
         export_get export_new export_read print_export_variables initial
         failed
         world trace export_env app negb fst snd dict_setitem dict_getitem
         default from_option id] in H;
    rewrite ?bind_assoc_run, ?bind_popen_run, ?bind_popen_text_run,
      ?bind_exists_run, ?bind_fail_run, ?fail_run,
      ?bind_export_get_run, ?str_eqb_refl, ?export_keys_differ,
      ?ret_run, ?raise_run in H;
    unfold failed, mbind, M_bind, mret, M_ret in H)).

(** One step: split on what the run waits for, and drop the cases the
    hypotheses exclude. *)
Ltac run_step H :=
  lazymatch type of H with
  | (_, _) = (_, _) => fail "done"
  | ?T = (_, _) =>
      let x := stuck T in
      tryif constr_eq x T then fail "the next stage"
      else (tryif is_var x then destruct x
            else (destruct x eqn:?; try congruence));
      monad_red H
  end.

(** Run a stage to its ends: [tac] brings in what is known beforehand. *)
Ltac explore_with H tac :=
  unfold in_environ, check_output, check_call, subprocess_run in H;
  unfold mbind, M_bind, mret, M_ret in H;
  monad_red H;
  repeat (tac; run_step H);
  tac; monad_red H; tac; tidy.

Ltac explore H := explore_with H idtac.

(** A run that has ended. *)
Ltac ended H :=
  apply pair_equal_spec in H as [<- <-]; cbn [fst snd trace export_env].

(** ** The stages of [main] *)

Section Stages.
Context {W : Type}.
Variable os : OS W.
Variable proc : Process.

Lemma print_export_variables_run (d : dict) (st : St W) :
  print_export_variables proc d st =
  (inl tt, {| world := world st;
              trace := trace st ++ export_events proc d;
              export_env := export_env st |}).
Proof.
  revert st. induction d as [|[var val] d IH]; intros st; cbn.
  - rewrite app_nil_r. destruct st; reflexivity.
  - unfold mbind, M_bind, bind, print, emit. rewrite IH. cbn.
    rewrite <- app_assoc. reflexivity.
Qed.

Lemma dict_get_set (k v : str) (d : dict) :
  dict_getitem k (dict_setitem k v d) = Some v.
Proof.
  induction d as [|[k' v'] d IH]; cbn.
  - rewrite str_eqb_refl. reflexivity.
  - destruct (str_eqb k' k) eqn:E; cbn; rewrite E; auto.
Qed.

Lemma Runs_cast r tr tr' d d' :
  Runs os proc r tr d -> tr = tr' -> d = d' -> Runs os proc r tr' d'.
Proof. intros H <- <-. exact H. Qed.

Lemma export_events_answered (d : dict) :
  Forall (answered os) (export_events proc d).
Proof.
  induction d as [|[var val] d IH]; cbn; constructor; [exact I | exact IH].
Qed.

Lemma primary_registered_cast root d nuget user t t' :
  primary_registered proc root d nuget user t -> t = t' ->
  primary_registered proc root d nuget user t'.
Proof. intros H <-. exact H. Qed.

Lemma credentials_cast root d d' nuget user token t :
  credentials proc root d nuget user token t -> d = d' ->
  credentials proc root d' nuget user token t.
Proof. intros H <-. exact H. Qed.

Lemma client_ready_cast root d nuget nuget' t t' :
  client_ready proc root d nuget t -> nuget = nuget' -> t = t' ->
  client_ready proc root d nuget' t'.
Proof. intros H <- <-. exact H. Qed.

Lemma fatal_nonzero rc out :
  rc <> 0 -> fatal (Exited rc out) = Some (CalledProcessError rc).
Proof. intros H. cbn. destruct (Z.eqb_spec rc 0); [contradiction | reflexivity]. Qed.
End Stages.

Ltac spec_unfold :=
  cbv [fail_events export_events vcpkg_exe_of bootstrap_of fetch_argv
       sources_argv setapikey_argv feed_url msg_root msg_bootstrap msg_mono
       msg_user msg_token msg_owner msg_same_feed binary_sources template
       read_segment];
  rewrite <- ?app_assoc; cbn [app map].

(** Premises of the shapes, closed by what the case analysis left in the
    context.  Hypotheses are picked by their syntax. *)
Ltac side :=
  lazymatch goal with
  | |- _ <> [] => discriminate
  | |- ?a <> ?b =>
      match goal with
      | H : a <> b |- _ => exact H
      end
  | |- truthy ?x = _ =>
      match goal with
      | H : truthy x = _ |- _ => exact H
      | H : x = _ |- _ => rewrite H; reflexivity
      end
  | |- fatal NotStarted = Some _ => reflexivity
  | |- fatal (Exited _ _) = Some _ => apply fatal_nonzero; assumption
  | |- win32 ?p = _ =>
      match goal with H : win32 p = _ |- _ => exact H end
  | |- getitem_last ?l = _ =>
      match goal with H : getitem_last l = _ |- _ => exact H end
  | |- ?x = Some _ =>
      match goal with H : x = Some _ |- _ => exact H end
  | |- ?x = None =>
      match goal with H : x = None |- _ => exact H end
  | |- _ => eassumption
  end.

Ltac head_of t :=
  lazymatch t with
  | ?f _ => head_of f
  | _ => t
  end.

(** The stage a shape starts from is a hypothesis. *)
Ltac stage_premise :=
  lazymatch goal with
  | |- ?G =>
      let h := head_of G in
      lazymatch h with
      | @root_resolved => eassumption
      | @tool_ready => eassumption
      | @runtime_ready => eassumption
      | @client_ready => eassumption
      | @credentials => eassumption
      | @primary_registered => eassumption
      | _ => idtac
      end
  end.

(** What the environment holds is fixed before the traces are compared. *)
Ltac environ_premise :=
  lazymatch goal with
  | |- environ _ !! _ = _ => side
  | |- _ => idtac
  end.

Ltac trace_premise :=
  lazymatch goal with
  | |- @eq (list event) _ _ => spec_unfold; reflexivity
  | |- @eq (list (list N * list N)) _ _ => spec_unfold; reflexivity
  | |- _ => idtac
  end.

(** An ended run has the shape [c]. *)
Tactic Notation "shape_by" uconstr(c) :=
  solve [ (((eapply Runs_cast; [ eapply c | | ]); stage_premise);
           environ_premise); trace_premise; side ].

Ltac answer :=
  lazymatch goal with
  | |- answered _ (EPrint _ _) => exact I
  | |- answered ?os (EExists ?p ?b) =>
      match goal with
      | H : path_exists os p ?w = Some b |- _ => exact (ex_intro _ w H)
      end
  | |- answered ?os (EExistsFails ?p) =>
      match goal with
      | H : path_exists os p ?w = None |- _ => exact (ex_intro _ w H)
      end
  | |- answered ?os (EWhich ?n ?r) =>
      first [ exact (ex_intro _ _ eq_refl)
            | match goal with
              | H : which os n ?w = r |- _ => exact (ex_intro _ w H)
              end ]
  | |- answered ?os (ESpawn _ CheckOutput ?a ?c ?r) =>
      match goal with
      | H : capture os a c ?w = (Decoded r, ?w') |- _ =>
          exact (ex_intro _ w (ex_intro _ w' H))
      end
  | |- answered ?os (ESpawn _ _ ?a ?c ?r) =>
      match goal with
      | H : spawn os a c ?w = (r, ?w') |- _ =>
          exact (ex_intro _ w (ex_intro _ w' H))
      end
  | |- answered ?os (EGarbled _ ?a ?c) =>
      match goal with
      | H : capture os a c ?w = (Undecodable, ?w') |- _ =>
          exact (ex_intro _ w (ex_intro _ w' H))
      end
  end.

Ltac answers :=
  rewrite <- ?app_assoc; cbn [app];
  repeat lazymatch goal with
  | |- Forall _ (export_events _ _) => apply export_events_answered
  | |- Forall _ [] => constructor
  | |- Forall _ (_ :: _) => constructor; [answer|]
  | |- Forall _ (_ ++ _) => apply Forall_app; split; [assumption|]
  | |- Forall _ _ => assumption
  end.

Ltac leaf H :=
  ended H; split; cbn [fst snd trace export_env]; [| solve [answers]].

(** Hand the rest of the run over to the lemma of the next stage. *)
Tactic Notation "continue" hyp(H) "by" uconstr(lem) :=
  rewrite <- ?app_assoc in H; cbn [app] in H;
  rewrite <- H; clear H; eapply lem.

Section Stages2.
Context {W : Type}.
Variable os : OS W.
Variable proc : Process.

Lemma secondary_runs root d nuget user t w :
  primary_registered proc root d nuget user t ->
  Forall (answered os) t ->
  Good os proc (main_from_secondary os proc root nuget user
          {| world := w; trace := t; export_env := d |}).
Proof.
  intros Hreg Hans.
  assert (Hget : dict_getitem (lit "VCPKG_BINARY_SOURCES") d = Some (template)).
  { destruct Hreg as [? ? ? ? ? ? ? ? ? ? Hc]. destruct Hc. apply dict_get_set. }
  destruct (main_from_secondary _ _ _ _ _ _) as [r st'] eqn:Hrun.
  unfold main_from_secondary in Hrun.
  explore_with Hrun ltac:(rewrite ?print_export_variables_run, ?Hget in Hrun).
  all: leaf Hrun.
  - shape_by run_done.
  - shape_by run_no_owner.
  - shape_by run_same_feed.
  - shape_by run_done_secondary.
  - shape_by run_secondary_update_fails.
  - shape_by run_secondary_update_fails.
  - shape_by run_secondary_add_not_started.
  - shape_by run_no_owner.
  - shape_by run_done.
Qed.

Lemma registration_runs root d nuget user token t w :
  credentials proc root d nuget user token t ->
  Forall (answered os) t ->
  Good os proc (main_from_registration os proc root nuget user token
          {| world := w; trace := t; export_env := d |}).
Proof.
  intros Hcred Hans.
  destruct (main_from_registration _ _ _ _ _ _ _) as [r st'] eqn:Hrun.
  unfold main_from_registration in Hrun.
  explore Hrun.
  - continue Hrun by secondary_runs; [| solve [answers] ].
    eapply primary_registered_cast;
      [ eapply primary_done; eassumption | spec_unfold; reflexivity ].
  - leaf Hrun. shape_by run_setapikey_fails.
  - leaf Hrun. shape_by run_setapikey_fails.
  - leaf Hrun. shape_by run_update_fails.
  - leaf Hrun. shape_by run_update_fails.
  - leaf Hrun. shape_by run_add_not_started.
Qed.

Lemma credentials_runs root d nuget t w :
  client_ready proc root d nuget t ->
  Forall (answered os) t ->
  Good os proc (main_from_credentials os proc root nuget
          {| world := w; trace := t; export_env := d |}).
Proof.
  intros Hready Hans.
  destruct (main_from_credentials _ _ _ _ _) as [r st'] eqn:Hrun.
  unfold main_from_credentials in Hrun.
  explore Hrun.
  - leaf Hrun. shape_by run_no_user.
  - leaf Hrun. shape_by run_no_token.
  - continue Hrun by registration_runs; [| solve [answers] ].
    eapply credentials_cast;
      [ eapply credentials_valid; [eassumption | side | side | side | side]
      | reflexivity ].
  - leaf Hrun. shape_by run_no_token.
  - leaf Hrun. shape_by run_no_user.
Qed.

Lemma fetch_runs root d t1 pre t2 t w :
  root_resolved proc root d -> tool_ready proc root t1 ->
  runtime_ready proc pre t2 -> t = t1 ++ t2 ->
  Forall (answered os) t ->
  Good os proc (main_from_fetch os proc root pre
          {| world := w; trace := t; export_env := d |}).
Proof.
  intros Hroot Htool Hrt -> Hans.
  destruct (main_from_fetch _ _ _ _ _) as [r st'] eqn:Hrun.
  unfold main_from_fetch in Hrun.
  apply Forall_app in Hans as [Hans1 Hans2].
  explore Hrun.
  - continue Hrun by credentials_runs; [| solve [answers] ].
    eapply client_ready_cast;
      [ eapply client_fetched; eassumption
      | reflexivity
      | spec_unfold; reflexivity ].
  - leaf Hrun. shape_by run_fetch_empty.
  - leaf Hrun. shape_by run_fetch_fails.
  - leaf Hrun. shape_by run_fetch_fails.
  - leaf Hrun. shape_by run_fetch_garbled.
Qed.

Lemma runtime_runs root d t w :
  root_resolved proc root d -> tool_ready proc root t ->
  Forall (answered os) t ->
  Good os proc (main_from_runtime os proc root
          {| world := w; trace := t; export_env := d |}).
Proof.
  intros Hroot Htool Hans.
  destruct (main_from_runtime _ _ _ _) as [r st'] eqn:Hrun.
  unfold main_from_runtime in Hrun.
  explore Hrun.
  - continue Hrun by fetch_runs;
      [ eassumption | eassumption | apply runtime_windows; assumption
      | symmetry; apply app_nil_r | assumption ].
  - continue Hrun by fetch_runs;
      [ eassumption | eassumption | apply runtime_mono; eassumption
      | reflexivity | solve [answers] ].
  - leaf Hrun. shape_by run_no_runtime.
Qed.

Lemma tool_runs root d w :
  root_resolved proc root d ->
  Good os proc (main_from_tool os proc root
          {| world := w; trace := []; export_env := d |}).
Proof.
  intros Hroot.
  destruct (main_from_tool _ _ _ _) as [r st'] eqn:Hrun.
  unfold main_from_tool in Hrun.
  explore Hrun.
  - continue Hrun by runtime_runs;
      [ eassumption | exact (tool_found proc root) | solve [answers] ].
  - continue Hrun by runtime_runs;
      [ eassumption | exact (tool_bootstrapped proc root _)
      | solve [answers] ].
  - leaf Hrun. shape_by run_bootstrap_fails.
  - leaf Hrun. shape_by run_bootstrap_fails.
  - leaf Hrun. shape_by run_no_bootstrap.
  - leaf Hrun. shape_by run_bootstrap_lookup_fails.
  - leaf Hrun. shape_by run_tool_lookup_fails.
Qed.

(** [main] is its first block followed by the rest. *)
Lemma main_eq :
  main os proc =
  (export_new ;;
   vcpkg_root ←
     (let vcpkg_root := PathOf (default (lit "") (environ proc !! lit "VCPKG_ROOT")) in
      if negb (in_environ proc (lit "VCPKG_ROOT")) then
        match environ proc !! lit "VCPKG_INSTALLATION_ROOT" with
        | Some v =>
            export_set (lit "VCPKG_ROOT") v ;;
            r ← export_get (lit "VCPKG_ROOT");
            ret (PathOf r)
        | None =>
            fail proc (lit "Please set 'VCPKG_ROOT' environment variable to vcpkg root directory")
        end
      else ret vcpkg_root);
   main_from_tool os proc vcpkg_root).
Proof. reflexivity. Qed.

(** Every run of [main] has one of the shapes of [Runs], and every answer
    in its trace is one the operating system gave. *)
Lemma main_runs (w : W) :
  Runs os proc (outcome os proc w) (events os proc w) (exported os proc w)
  /\ Forall (answered os) (events os proc w).
Proof.
  change (Good os proc (run os proc w)).
  unfold run. rewrite main_eq.
  match goal with
  | |- Good _ _ ?T => destruct T as [r st'] eqn:Hrun
  end.
  explore Hrun.
  - continue Hrun by tool_runs. apply root_primary. assumption.
  - continue Hrun by tool_runs. apply root_fallback; assumption.
  - leaf Hrun. shape_by run_no_root.
Qed.
End Stages2.

(** ** Reading the shapes *)

Lemma printed_app (to : Stream) (a b : list event) :
  printed to (a ++ b) = printed to a ++ printed to b.
Proof.
  induction a as [|e a IH]; [reflexivity |].
  destruct e as [[] line| | | | |]; destruct to; cbn; rewrite ?IH; reflexivity.
Qed.

Lemma spawned_app (a b : list event) :
  spawned (a ++ b) = spawned a ++ spawned b.
Proof.
  induction a as [|e a IH]; [reflexivity |].
  destruct e; cbn; rewrite ?IH; reflexivity.
Qed.

Lemma printed_export_events (proc : Process) (d : dict) :
  printed Stdout (export_events proc d)
  = map (fun '(var, val) => export_line proc var val) d
  /\ printed Stderr (export_events proc d) = [].
Proof.
  induction d as [|[var val] d [IH1 IH2]]; [split; reflexivity |].
  split; [cbn; f_equal; exact IH1 | exact IH2].
Qed.

Lemma spawned_export_events (proc : Process) (d : dict) :
  spawned (export_events proc d) = [].
Proof. induction d as [|[var val] d IH]; [reflexivity | exact IH]. Qed.

(** All the runs of [main], shape by shape, stage by stage. *)
Ltac stages :=
  repeat match goal with
  | H : primary_registered _ _ _ _ _ _ |- _ => destruct H
  | H : credentials _ _ _ _ _ _ _ |- _ => destruct H
  | H : client_ready _ _ _ _ _ |- _ => destruct H
  | H : tool_ready _ _ _ |- _ => destruct H
  | H : runtime_ready _ _ _ |- _ => destruct H
  end.

Ltac all_runs os proc w HA :=
  let HR := fresh "HR" in
  destruct (main_runs os proc w) as [HR HA];
  revert HR HA;
  generalize (outcome os proc w) (events os proc w) (exported os proc w);
  intros ?r ?tr ?d HR HA;
  destruct HR; stages.

Ltac read_trace :=
  rewrite ?printed_app, ?spawned_app, ?spawned_export_events;
  cbn [printed spawned app fail_events].

Lemma fatal_exit (res : proc_result) (e : exn) :
  fatal res = Some e -> exit_status (inr e) = 1.
Proof.
  destruct res as [rc out|]; cbn; [destruct (rc =? 0) |]; intros H;
    inversion H; reflexivity.
Qed.

Lemma fatal_not_exit (res : proc_result) (e : exn) :
  fatal res = Some e ->
  (exists rc, e = CalledProcessError rc /\ rc <> 0) \/ e = OSError.
Proof.
  destruct res as [rc out|]; cbn; [destruct (Z.eqb_spec rc 0) |]; intros H;
    inversion H; eauto.
Qed.

(** What the operating system said about [mono], if the run asked. *)
Lemma which_answered {W} (os : OS W) (tr : list event) (name : str)
    (found : option str) :
  Forall (answered os) tr -> In (EWhich name found) tr ->
  exists w, which os name w = found.
Proof.
  intros HA Hin. rewrite List.Forall_forall in HA. exact (HA _ Hin).
Qed.

(** Membership in a trace that is written out. *)
Ltac in_trace :=
  repeat (rewrite ?in_app_iff; cbn [In fail_events]); tauto.

(** C9: on a platform other than Windows, when [shutil.which] finds no
    [mono], the exit status of the run is not 0 and [vcpkg fetch nuget] is
    never run. *)
Theorem no_runtime_no_fetch {W} (os : OS W) (proc : Process) (w : W) :
  win32 proc = false ->
  (forall w', truthy (which os (lit "mono") w') = false) ->
  exit_status (outcome os proc w) <> 0
  /\ FetchNuget ∉ spawned (events os proc w).
Proof.
  intros Hwin Hmono.
  all_runs os proc w HA.
  all: try congruence.
  all: try match goal with
       | Hm : truthy ?m = true |- _ =>
           destruct (which_answered os _ (lit "mono") m HA) as [w' Hw'];
             [ in_trace | rewrite <- Hw', Hmono in Hm; discriminate ]
       end.
  all: read_trace.
  all: split; [ first [ discriminate | erewrite fatal_exit by eassumption; discriminate ] | ].
  all: rewrite ?list_elem_of_In; cbn; intuition discriminate.
Qed.

Import Worlds.

Lemma no_runtime_no_fetch_witness :
  win32 linux_primary = false
  /\ (forall w', truthy (which os_no_mono (lit "mono") w') = false)
  /\ exit_status (outcome os_no_mono linux_primary tt) <> 0
  /\ FetchNuget ∉ spawned (events os_no_mono linux_primary tt).
Proof.
  split; [vm_compute; reflexivity |].
  split; [intros w'; reflexivity |].
  apply (no_runtime_no_fetch os_no_mono linux_primary tt).
  - vm_compute. reflexivity.
  - intros w'. reflexivity.
Defined.

(** The diagnostics, one by one. *)
Ltac diagnosed :=
  lazymatch goal with
  | |- diagnostic _ msg_root => left; cbn [In]; tauto
  | |- diagnostic _ msg_mono => left; cbn [In]; tauto
  | |- diagnostic _ msg_user => left; cbn [In]; tauto
  | |- diagnostic _ msg_token => left; cbn [In]; tauto
  | |- diagnostic _ msg_owner => left; cbn [In]; tauto
  | |- diagnostic _ (msg_bootstrap _ ?root) => right; exists root; reflexivity
  end.





Lemma export_events_prints (proc : Process) (d : dict) (e : event) :
  In e (export_events proc d) -> exists line, e = EPrint Stdout line.
Proof.
  unfold export_events. rewrite in_map_iff.
  intros [[var val] [<- _]]. eauto.
Qed.

(** An event of a trace that is written out: one case per position. *)
Ltac each_event Hin :=
  repeat rewrite in_app_iff in Hin; cbn [In fail_events] in Hin;
  repeat match type of Hin with
  | _ \/ _ => destruct Hin as [Hin|Hin]
  | False => destruct Hin
  | In _ (export_events _ _) =>
      apply export_events_prints in Hin as [? Hin]
  end;
  try subst.

Ltac primary_credentials :=
  match goal with
  | Hu : environ _ !! lit "VCPKG_NUGET_USER" = Some ?u,
    Ht : environ _ !! lit "VCPKG_NUGET_TOKEN" = Some ?t |- _ =>
      eexists _, u, t;
      refine (conj Hu (conj _ (conj Ht (conj _ eq_refl)))); assumption
  end.

Ltac secondary_credentials :=
  match goal with
  | Hu : environ _ !! lit "VCPKG_NUGET_USER" = Some ?u,
    Ho : environ _ !! lit "VCPKG_PRIMARY_NUGET_OWNER" = Some ?o,
    Hp : environ _ !! lit "VCPKG_PRIMARY_NUGET_TOKEN" = Some ?p |- _ =>
      eexists _, u, o, p;
      refine (conj Hu (conj _ (conj Ho (conj _ (conj Hp (conj _ eq_refl))))));
      assumption
  end.

Ltac credentials_of_event :=
  lazymatch goal with
  | |- credentialed _ (ESpawn PrimaryAdd _ _ _ _) => primary_credentials
  | |- credentialed _ (ESpawn PrimaryUpdate _ _ _ _) => primary_credentials
  | |- credentialed _ (ESpawn SetApiKey _ _ _ _) => primary_credentials
  | |- credentialed _ (ESpawn SecondaryAdd _ _ _ _) => secondary_credentials
  | |- credentialed _ (ESpawn SecondaryUpdate _ _ _ _) => secondary_credentials
  | |- _ => exact I
  end.

(** C2, as stated, fails for the root directory: [VCPKG_ROOT] set to the
    empty string passes the check of line 47, the script goes on with the
    empty string as its root and ends normally. *)
Lemma validated_nonempty_counterexample :
  environ linux_empty_root !! lit "VCPKG_ROOT" = Some []
  /\ head (events os_ok linux_empty_root tt)
     = Some (EExists (PathJoin (PathOf []) (lit "vcpkg")) true)
  /\ printed Stderr (events os_ok linux_empty_root tt) = []
  /\ outcome os_ok linux_empty_root tt = inl tt.
Proof. repeat split; vm_compute; reflexivity. Qed.

(** C2, amended: the username, the token and, for the secondary feed, the
    owner and the secondary token reach the NuGet client only as non-empty
    strings read from the environment; the root directory is checked for
    presence only. *)
Theorem validated_values {W} (os : OS W) (proc : Process) (w : W) (e : event) :
  In e (events os proc w) -> credentialed proc e.
Proof.
  revert e. all_runs os proc w HA.
  all: intros ev Hin; each_event Hin.
  all: credentials_of_event.
Qed.

Lemma validated_values_witness :
  let e := ESpawn PrimaryAdd Run
             (sources_argv [AStr (lit "mono"); AStr nuget_path] (lit "add")
                (feed_url (lit "octocat")) (lit "GitHub")
                (lit "octocat") (lit "ghp_1"))
             (PathOf (lit "/opt/vcpkg")) (Exited 0 (nuget_path ++ nl)) in
  In e (events os_ok linux_primary tt) /\ credentialed linux_primary e.
Proof.
  intros e.
  assert (Hin : In e (events os_ok linux_primary tt)).
  { apply (nth_error_In _ 3). vm_compute. reflexivity. }
  split; [exact Hin |].
  exact (validated_values os_ok linux_primary tt e Hin).
Defined.






Lemma primary_calls_export_events (proc : Process) (d : dict) :
  List.filter is_primary (export_events proc d) = [].
Proof. induction d as [|[var val] d IH]; [reflexivity | exact IH]. Qed.

Ltac read_calls :=
  unfold primary_calls;
  repeat rewrite List.filter_app;
  rewrite ?primary_calls_export_events;
  cbn [List.filter is_primary app fail_events];
  rewrite ?app_nil_r.

(** C4: once the fetch has gone through and the username and the token are
    validated, the NuGet client is run for the primary feed as [sources add],
    then [sources update], then [setapikey], each at most once and in that
    order.  Whatever [sources add] returns, [sources update] follows; a
    failure of [sources update] ends the script there with its exception, and
    so does a failure of [setapikey]. *)
Theorem primary_registration_order {W} (os : OS W) (proc : Process) (w : W) :
  fetched (events os proc w) ->
  truthy (environ proc !! lit "VCPKG_NUGET_USER") = true ->
  truthy (environ proc !! lit "VCPKG_NUGET_TOKEN") = true ->
  exists nuget root user token r1,
    environ proc !! lit "VCPKG_NUGET_USER" = Some user /\
    environ proc !! lit "VCPKG_NUGET_TOKEN" = Some token /\
    let add :=
      ESpawn PrimaryAdd Run
        (sources_argv nuget (lit "add") (feed_url user) (lit "GitHub") user token)
        root in
    let update :=
      ESpawn PrimaryUpdate CheckCall
        (sources_argv nuget (lit "update") (feed_url user) (lit "GitHub") user token)
        root in
    let setapikey :=
      ESpawn SetApiKey CheckCall (setapikey_argv nuget token (feed_url user))
        root in
    match r1 with
    | NotStarted =>
        primary_calls (events os proc w) = [add r1]
        /\ outcome os proc w = inr OSError
    | Exited _ _ =>
        exists r2,
          match fatal r2 with
          | Some e =>
              primary_calls (events os proc w) = [add r1; update r2]
              /\ outcome os proc w = inr e
          | None =>
              exists r3,
                primary_calls (events os proc w) = [add r1; update r2; setapikey r3]
                /\ forall e, fatal r3 = Some e -> outcome os proc w = inr e
          end
    end.
Proof.
  all_runs os proc w HA.
  all: intros (fargv & fcwd & fout & Hin & Hout) Huser Htoken.
  all: try match goal with
       | H : truthy (environ _ !! lit "VCPKG_NUGET_USER") = false |- _ =>
           rewrite Huser in H; discriminate H
       | H : truthy (environ _ !! lit "VCPKG_NUGET_TOKEN") = false |- _ =>
           rewrite Htoken in H; discriminate H
       end.
  all: lazymatch goal with
       | |- context [ESpawn PrimaryAdd Run (sources_argv ?n _ _ _ ?u ?t) ?root ?r1] =>
           clear Hin Hout; exists n, root, u, t, r1;
           split; [assumption | split; [assumption |]]
       | |- _ =>
           exfalso; each_event Hin;
           first [ discriminate Hin
                 | injection Hin; clear Hin; intros; subst;
                   first [ congruence
                         | match goal with
                           | Hf : fatal (Exited 0 _) = Some _ |- _ =>
                               discriminate Hf
                           end ] ]
       end.
  all: cbv zeta.
  all: try (split; [read_calls; reflexivity | reflexivity]).
  all: lazymatch goal with
       | |- context [ESpawn PrimaryUpdate CheckCall _ _ ?r2] => exists r2
       end.
  all: first
         [ match goal with
           | Hf : fatal ?r2 = Some _ |- context [fatal ?r2] => rewrite Hf
           end;
           split; [read_calls; reflexivity | reflexivity]
         | cbn [fatal Z.eqb] ].
  all: lazymatch goal with
       | |- context [ESpawn SetApiKey CheckCall _ _ ?r3] => exists r3
       end.
  all: split; [read_calls; reflexivity |].
  all: intros e' He'.
  all: first
         [ discriminate He'
         | match goal with
           | Hf : fatal ?r3 = Some _ |- _ =>
               rewrite Hf in He'; injection He' as <-; reflexivity
           end ].
Qed.

Lemma primary_registration_order_witness :
  fetched (events os_ok linux_primary tt)
  /\ truthy (environ linux_primary !! lit "VCPKG_NUGET_USER") = true
  /\ truthy (environ linux_primary !! lit "VCPKG_NUGET_TOKEN") = true
  /\ exists nuget root user token r1,
       environ linux_primary !! lit "VCPKG_NUGET_USER" = Some user /\
       environ linux_primary !! lit "VCPKG_NUGET_TOKEN" = Some token /\
       let add :=
         ESpawn PrimaryAdd Run
           (sources_argv nuget (lit "add") (feed_url user) (lit "GitHub") user token)
           root in
       let update :=
         ESpawn PrimaryUpdate CheckCall
           (sources_argv nuget (lit "update") (feed_url user) (lit "GitHub") user token)
           root in
       let setapikey :=
         ESpawn SetApiKey CheckCall (setapikey_argv nuget token (feed_url user))
           root in
       match r1 with
       | NotStarted =>
           primary_calls (events os_ok linux_primary tt) = [add r1]
           /\ outcome os_ok linux_primary tt = inr OSError
       | Exited _ _ =>
           exists r2,
             match fatal r2 with
             | Some e =>
                 primary_calls (events os_ok linux_primary tt) = [add r1; update r2]
                 /\ outcome os_ok linux_primary tt = inr e
             | None =>
                 exists r3,
                   primary_calls (events os_ok linux_primary tt)
                   = [add r1; update r2; setapikey r3]
                   /\ forall e, fatal r3 = Some e ->
                                outcome os_ok linux_primary tt = inr e
             end
       end.
Proof.
  assert (Hfetched : fetched (events os_ok linux_primary tt)).
  { exists (fetch_argv linux_primary (PathOf (lit "/opt/vcpkg"))),
      (PathOf (lit "/opt/vcpkg")), (nuget_path ++ nl).
    split; [| discriminate].
    apply (nth_error_In _ 2). vm_compute. reflexivity. }
  assert (Huser : truthy (environ linux_primary !! lit "VCPKG_NUGET_USER") = true)
    by (vm_compute; reflexivity).
  assert (Htoken : truthy (environ linux_primary !! lit "VCPKG_NUGET_TOKEN") = true)
    by (vm_compute; reflexivity).
  split; [exact Hfetched |].
  split; [exact Huser |].
  split; [exact Htoken |].
  exact (primary_registration_order os_ok linux_primary tt Hfetched Huser Htoken).
Defined.

(** A variable that holds a non-empty string is truthy. *)
Lemma truthy_nonempty (v : option str) (s : str) :
  v = Some s -> s <> [] -> truthy v = true.
Proof. intros -> Hs. destruct s; [contradiction | reflexivity]. Qed.

(** Each diagnostic of a missing variable names it. *)
Lemma diagnostics_name_variables :
  str_contains msg_root (variable_of RootDirectory) = true
  /\ str_contains msg_user (variable_of Username) = true
  /\ str_contains msg_token (variable_of Token) = true
  /\ str_contains msg_owner (variable_of SecondaryOwner) = true.
Proof. repeat split; vm_compute; reflexivity. Qed.

(** The shapes a missing variable excludes. *)
Ltac absurd_missing Hmiss :=
  match goal with
  | H : root_resolved _ _ _ |- _ =>
      lazymatch type of Hmiss with
      | _ /\ environ _ !! lit "VCPKG_INSTALLATION_ROOT" = None =>
          destruct H as [? Hr | ? Hr Hv];
          [ rewrite (proj1 Hmiss) in Hr; discriminate Hr
          | rewrite (proj2 Hmiss) in Hv; discriminate Hv ]
      end
  | Hv : ?x = Some ?s, Hne : ?s <> [] |- _ =>
      lazymatch type of Hmiss with
      | truthy x = false =>
          rewrite (truthy_nonempty _ _ Hv Hne) in Hmiss; discriminate Hmiss
      | _ /\ truthy x = false =>
          rewrite (truthy_nonempty _ _ Hv Hne) in Hmiss;
          destruct Hmiss as [_ Hmiss]; discriminate Hmiss
      end
  | Ht : truthy ?x = false |- _ =>
      lazymatch type of Hmiss with
      | truthy x = true /\ _ =>
          rewrite (proj1 Hmiss) in Ht; discriminate Ht
      end
  end.

(** C5, as stated, fails: with [VCPKG_NUGET_USER] unset and no [mono] on
    the search path, the diagnostic is about [mono] and does not name the
    variable. *)
Lemma missing_variable_named_counterexample :
  missing linux_no_user Username
  /\ exit_status (outcome os_no_mono linux_no_user tt) = 1
  /\ printed Stderr (events os_no_mono linux_no_user tt)
     = [lit "Please install 'mono' .NET framework runtime"]
  /\ str_contains (lit "Please install 'mono' .NET framework runtime")
       (variable_of Username) = false.
Proof. repeat split; vm_compute; reflexivity. Qed.

(** C5, amended: when a required variable is missing the exit status is
    never 0; and when the run gets as far as checking that variable, it ends
    through [fail] with a diagnostic that names the variable. *)
Theorem missing_variable_reported {W} (os : OS W) (proc : Process) (w : W)
    (v : Required) :
  missing proc v ->
  exit_status (outcome os proc w) <> 0
  /\ (checked proc v (events os proc w) ->
      through_fail proc (outcome os proc w) (events os proc w)
      /\ exists msg, printed Stderr (events os proc w) = [msg]
                     /\ str_contains msg (variable_of v) = true).
Proof.
  intros Hmiss.
  all_runs os proc w HA.
  all: clear HA; destruct v; cbn [missing checked variable_of] in *.
  all: try (exfalso; absurd_missing Hmiss; fail).
  all: split;
         [ first [ discriminate
                 | erewrite fatal_exit by eassumption; discriminate ] |].
  all: intros Hchk.
  all: first
    [ (* the run ended at the check of the variable *)
      solve
        [ split;
          [ split; [reflexivity |];
            split; [eexists |]; read_trace; reflexivity
          | eexists; split; [read_trace; reflexivity |];
            first [ exact (proj1 diagnostics_name_variables)
                  | exact (proj1 (proj2 diagnostics_name_variables))
                  | exact (proj1 (proj2 (proj2 diagnostics_name_variables)))
                  | exact (proj2 (proj2 (proj2 diagnostics_name_variables))) ] ] ]
    | (* it ended before *)
      exfalso;
      repeat match type of Hchk with
      | fetched _ /\ _ =>
          let Hu := fresh "Hu" in
          destruct Hchk as [Hchk Hu];
          try match goal with
              | Hf : truthy ?x = false |- _ =>
                  rewrite Hu in Hf; discriminate Hf
              end
      | fetched _ => destruct Hchk as (? & ? & ? & Hchk & ?)
      | api_key_set _ => destruct Hchk as (? & ? & ? & Hchk)
      end;
      each_event Hchk;
      first [ discriminate Hchk
            | injection Hchk; clear Hchk; intros; subst;
              first [ congruence
                    | match goal with
                      | Hf : fatal (Exited 0 _) = Some _ |- _ =>
                          discriminate Hf
                      end ] ] ].
Qed.

Lemma missing_variable_reported_witness :
  missing linux_no_user Username
  /\ checked linux_no_user Username (events os_ok linux_no_user tt)
  /\ exit_status (outcome os_ok linux_no_user tt) <> 0
  /\ through_fail linux_no_user (outcome os_ok linux_no_user tt)
       (events os_ok linux_no_user tt)
  /\ exists msg, printed Stderr (events os_ok linux_no_user tt) = [msg]
                 /\ str_contains msg (variable_of Username) = true.
Proof.
  assert (Hmiss : missing linux_no_user Username) by (vm_compute; reflexivity).
  assert (Hchk : checked linux_no_user Username (events os_ok linux_no_user tt)).
  { exists (fetch_argv linux_no_user (PathOf (lit "/opt/vcpkg"))),
      (PathOf (lit "/opt/vcpkg")), (nuget_path ++ nl).
    split; [| discriminate].
    apply (nth_error_In _ 2). vm_compute. reflexivity. }
  destruct (missing_variable_reported os_ok linux_no_user tt Username Hmiss)
    as [Hexit Hfail].
  destruct (Hfail Hchk) as [Hthrough Hmsg].
  exact (conj Hmiss (conj Hchk (conj Hexit (conj Hthrough Hmsg)))).
Defined.

Lemma export_events_rooted (proc : Process) (root : Path) (d : dict) :
  Forall (rooted_at root) (export_events proc d).
Proof.
  induction d as [|[var val] d IH]; cbn; constructor; [exact I | exact IH].
Qed.

(** The dict, once the two keys are told apart. *)
Ltac read_dict :=
  unfold binary_sources;
  repeat (cbn [dict_setitem dict_getitem map];
          rewrite ?export_keys_differ, ?str_eqb_refl).

(** An event of the script stays in the root directory. *)
Ltac rooted_command :=
  split; [reflexivity |];
  let p := fresh "p" in
  let Hp := fresh "Hp" in
  intros p Hp;
  cbv [fetch_argv sources_argv setapikey_argv] in Hp;
  repeat rewrite in_app_iff in Hp; cbn [In] in Hp;
  repeat match type of Hp with
  | _ \/ _ => destruct Hp as [Hp|Hp]
  end;
  first [ discriminate Hp
        | contradiction
        | injection Hp as <-; eexists; reflexivity ].

Ltac rooted :=
  lazymatch goal with
  | |- rooted_at _ (EPrint _ _) => exact I
  | |- rooted_at _ (EWhich _ _) => exact I
  | |- rooted_at _ (EExists _ _) => eexists; reflexivity
  | |- rooted_at _ (EExistsFails _) => eexists; reflexivity
  | |- rooted_at _ (ESpawn _ _ _ _ _) => rooted_command
  | |- rooted_at _ (EGarbled _ _ _) => rooted_command
  end.

Ltac all_rooted :=
  unfold fail_events; repeat rewrite <- app_assoc; cbn [app];
  repeat lazymatch goal with
  | |- Forall _ (export_events _ _) => apply export_events_rooted
  | |- Forall _ [] => constructor
  | |- Forall _ (_ :: _) => constructor; [rooted |]
  end.

(** C6: with the primary root variable unset and the fallback set, the
    dict that is exported holds the fallback's value under the primary name
    from then on, every path the script looks up, every command it
    runs and every working directory lies in that root, and a run that
    returns has printed the export line of the root variable. *)
Theorem fallback_root_used {W} (os : OS W) (proc : Process) (w : W) (v : str) :
  environ proc !! lit "VCPKG_ROOT" = None ->
  environ proc !! lit "VCPKG_INSTALLATION_ROOT" = Some v ->
  dict_getitem (lit "VCPKG_ROOT") (exported os proc w) = Some v
  /\ Forall (rooted_at (PathOf v)) (events os proc w)
  /\ (outcome os proc w = inl tt ->
      In (export_line proc (lit "VCPKG_ROOT") v)
         (printed Stdout (events os proc w))).
Proof.
  intros Hroot Hfallback.
  all_runs os proc w HA.
  all: clear HA.
  all: try match goal with
       | H : environ _ !! lit "VCPKG_INSTALLATION_ROOT" = None |- _ =>
           rewrite Hfallback in H; discriminate H
       end.
  all: match goal with
       | H : root_resolved _ _ _ |- _ =>
           destruct H as [? Hr | ? Hr Hv];
           [ rewrite Hroot in Hr; discriminate Hr
           | rewrite Hfallback in Hv; injection Hv as <- ]
       end.
  all: split; [read_dict; reflexivity |].
  all: split; [solve [all_rooted] |].
  all: intros Hdone; try discriminate Hdone.
  all: read_trace.
  all: rewrite (proj1 (printed_export_events proc _)).
  all: read_dict; cbn [In]; left; reflexivity.
Qed.

Lemma fallback_root_used_witness :
  environ linux_fallback !! lit "VCPKG_ROOT" = None
  /\ environ linux_fallback !! lit "VCPKG_INSTALLATION_ROOT"
     = Some (lit "/usr/local/share/vcpkg")
  /\ dict_getitem (lit "VCPKG_ROOT") (exported os_ok linux_fallback tt)
     = Some (lit "/usr/local/share/vcpkg")
  /\ Forall (rooted_at (PathOf (lit "/usr/local/share/vcpkg")))
       (events os_ok linux_fallback tt)
  /\ (outcome os_ok linux_fallback tt = inl tt ->
      In (export_line linux_fallback (lit "VCPKG_ROOT") (lit "/usr/local/share/vcpkg"))
         (printed Stdout (events os_ok linux_fallback tt))).
Proof.
  assert (Hroot : environ linux_fallback !! lit "VCPKG_ROOT" = None)
    by (vm_compute; reflexivity).
  assert (Hfallback : environ linux_fallback !! lit "VCPKG_INSTALLATION_ROOT"
                      = Some (lit "/usr/local/share/vcpkg"))
    by (vm_compute; reflexivity).
  exact (conj Hroot (conj Hfallback
           (fallback_root_used os_ok linux_fallback tt _ Hroot Hfallback))).
Defined.





(** C8, as stated, fails: with the secondary token set and the owner
    unset, a [sources update] that exits with 1 ends the script with an
    uncaught [CalledProcessError], not through [fail]. *)
Lemma secondary_owner_fail_counterexample :
  truthy (environ linux_no_owner !! lit "VCPKG_PRIMARY_NUGET_TOKEN") = true
  /\ environ linux_no_owner !! lit "VCPKG_PRIMARY_NUGET_OWNER" = None
  /\ outcome os_update_fails linux_no_owner tt = inr (CalledProcessError 1)
  /\ printed Stderr (events os_update_fails linux_no_owner tt) = []
  /\ ~ through_fail linux_no_owner
         (outcome os_update_fails linux_no_owner tt)
         (events os_update_fails linux_no_owner tt).
Proof.
  repeat split; try (vm_compute; reflexivity).
  intros [H _]. vm_compute in H. discriminate.
Qed.

(** C8, amended: with a non-empty secondary token and the owner variable
    unset, the exit status is never 0 and no command for the secondary feed
    is ever run; and when the run gets past the registration of the primary
    feed, it ends through [fail] with the diagnostic about the owner. *)
Theorem secondary_owner_required {W} (os : OS W) (proc : Process) (w : W) :
  truthy (environ proc !! lit "VCPKG_PRIMARY_NUGET_TOKEN") = true ->
  environ proc !! lit "VCPKG_PRIMARY_NUGET_OWNER" = None ->
  exit_status (outcome os proc w) <> 0
  /\ (SecondaryAdd ∉ spawned (events os proc w))
  /\ (SecondaryUpdate ∉ spawned (events os proc w))
  /\ (api_key_set (events os proc w) ->
      through_fail proc (outcome os proc w) (events os proc w)
      /\ printed Stderr (events os proc w) = [msg_owner]).
Proof.
  intros Hset Hnone.
  all_runs os proc w HA.
  all: clear HA.
  all: try match goal with
       | H : environ _ !! lit "VCPKG_PRIMARY_NUGET_OWNER" = Some _ |- _ =>
           rewrite Hnone in H; discriminate H
       | H : truthy (environ _ !! lit "VCPKG_PRIMARY_NUGET_TOKEN") = false |- _ =>
           rewrite Hset in H; discriminate H
       end.
  all: split;
         [ first [ discriminate
                 | erewrite fatal_exit by eassumption; discriminate ] |].
  all: split; [read_trace; rewrite list_elem_of_In; cbn; intuition discriminate |].
  all: split; [read_trace; rewrite list_elem_of_In; cbn; intuition discriminate |].
  all: intros Hchk.
  all: first
    [ solve
        [ split;
          [ split; [reflexivity |];
            split; [eexists |]; read_trace; reflexivity
          | read_trace; reflexivity ] ]
    | exfalso;
      destruct Hchk as (? & ? & ? & Hchk);
      each_event Hchk;
      first [ discriminate Hchk
            | injection Hchk; clear Hchk; intros; subst;
              match goal with
              | Hf : fatal (Exited 0 _) = Some _ |- _ => discriminate Hf
              end ] ].
Qed.

Lemma secondary_owner_required_witness :
  truthy (environ linux_no_owner !! lit "VCPKG_PRIMARY_NUGET_TOKEN") = true
  /\ environ linux_no_owner !! lit "VCPKG_PRIMARY_NUGET_OWNER" = None
  /\ api_key_set (events os_ok linux_no_owner tt)
  /\ exit_status (outcome os_ok linux_no_owner tt) <> 0
  /\ (SecondaryAdd ∉ spawned (events os_ok linux_no_owner tt))
  /\ (SecondaryUpdate ∉ spawned (events os_ok linux_no_owner tt))
  /\ through_fail linux_no_owner (outcome os_ok linux_no_owner tt)
       (events os_ok linux_no_owner tt)
  /\ printed Stderr (events os_ok linux_no_owner tt) = [msg_owner].
Proof.
  assert (Hset : truthy (environ linux_no_owner !! lit "VCPKG_PRIMARY_NUGET_TOKEN")
                 = true) by (vm_compute; reflexivity).
  assert (Hnone : environ linux_no_owner !! lit "VCPKG_PRIMARY_NUGET_OWNER" = None)
    by (vm_compute; reflexivity).
  assert (Hkey : api_key_set (events os_ok linux_no_owner tt)).
  { exists (setapikey_argv [AStr (lit "mono"); AStr nuget_path] (lit "ghp_1")
              (feed_url (lit "octocat"))),
      (PathOf (lit "/opt/vcpkg")), (nuget_path ++ nl).
    apply (nth_error_In _ 5). vm_compute. reflexivity. }
  destruct (secondary_owner_required os_ok linux_no_owner tt Hset Hnone)
    as (Hexit & Hadd & Hupdate & Hfail).
  destruct (Hfail Hkey) as [Hthrough Hmsg].
  exact (conj Hset (conj Hnone (conj Hkey (conj Hexit (conj Hadd
           (conj Hupdate (conj Hthrough Hmsg))))))).
Defined.

(** C10: when [vcpkg fetch nuget] exits with 0, the index [[-1]] of line 72
    decides: on empty output the run ends with an uncaught [IndexError], its
    exit status is 1 and the script has printed nothing, neither a diagnostic
    nor a shell statement, so it did not go through [fail]; on non-empty
    output the index yields the client's path and the run does not end with
    [IndexError]. *)
Theorem fetch_output_indexed {W} (os : OS W) (proc : Process) (w : W)
    (argv : list arg) (cwd : Path) (out : str) :
  In (ESpawn FetchNuget CheckOutput argv cwd (Exited 0 out)) (events os proc w) ->
  (out = [] ->
   outcome os proc w = inr IndexError
   /\ exit_status (outcome os proc w) = 1
   /\ printed Stdout (events os proc w) = []
   /\ printed Stderr (events os proc w) = []
   /\ ~ through_fail proc (outcome os proc w) (events os proc w))
  /\ (out <> [] ->
      (exists nuget_exe, getitem_last (splitlines out) = inl nuget_exe)
      /\ outcome os proc w <> inr IndexError).
Proof.
  revert argv cwd out.
  all_runs os proc w HA.
  all: clear HA; intros ? ? ? Hin; each_event Hin.
  all: first [ discriminate Hin | injection Hin; clear Hin; intros; subst ].
  all: try match goal with
       | Hf : fatal (Exited 0 _) = Some _ |- _ => discriminate Hf
       end.
  all: split; [intros Hout | intros Hout].
  all: try (rewrite Hout in *;
            match goal with
            | H : getitem_last (splitlines []) = inl _ |- _ => discriminate H
            end).
  all: try contradiction.
  all: try (split; [eexists; eassumption |]).
  all: try discriminate.
  all: try match goal with
       | H : fatal _ = Some ?e |- inr ?e <> _ =>
           destruct (fatal_not_exit _ _ H) as [(? & -> & _) | ->]; discriminate
       end.
  all: read_trace.
  all: repeat split; try reflexivity.
  all: intros (_ & _ & Hprinted); revert Hprinted; read_trace; discriminate.
Qed.

Lemma fetch_output_indexed_witness :
  In (ESpawn FetchNuget CheckOutput (fetch_argv linux_primary (PathOf (lit "/opt/vcpkg")))
        (PathOf (lit "/opt/vcpkg")) (Exited 0 []))
     (events os_fetch_silent linux_primary tt)
  /\ outcome os_fetch_silent linux_primary tt = inr IndexError
  /\ exit_status (outcome os_fetch_silent linux_primary tt) = 1
  /\ printed Stdout (events os_fetch_silent linux_primary tt) = []
  /\ printed Stderr (events os_fetch_silent linux_primary tt) = []
  /\ ~ through_fail linux_primary (outcome os_fetch_silent linux_primary tt)
         (events os_fetch_silent linux_primary tt).
Proof.
  assert (Hin : In (ESpawn FetchNuget CheckOutput
                      (fetch_argv linux_primary (PathOf (lit "/opt/vcpkg")))
                      (PathOf (lit "/opt/vcpkg")) (Exited 0 []))
                   (events os_fetch_silent linux_primary tt)).
  { apply (nth_error_In _ 2). vm_compute. reflexivity. }
  split; [exact Hin |].
  exact (proj1 (fetch_output_indexed os_fetch_silent linux_primary tt _ _ _ Hin)
           eq_refl).
Defined.

(** ** More about the three functions *)


(** X3: the dict of the script.  After [d[k] = v] a lookup of [k] gives
    [v] and a lookup of any other key gives what it gave before; the keys
    keep their order, and [k] is appended only when it was not a key. *)
Theorem dict_setitem_getitem (k k' v : str) (d : dict) :
  dict_getitem k' (dict_setitem k v d)
  = (if str_eqb k k' then Some v else dict_getitem k' d)
  /\ map fst (dict_setitem k v d)
     = (if bool_decide (k ∈ map fst d) then map fst d else map fst d ++ [k]).
Proof.
  split.
  - induction d as [|[k0 v0] d IH]; cbn.
    + reflexivity.
    + destruct (str_eqb k0 k) eqn:E; cbn.
      * apply str_eqb_eq in E as ->.
        destruct (str_eqb k k') eqn:E'; reflexivity.
      * destruct (str_eqb k0 k') eqn:E'; [| exact IH].
        apply str_eqb_eq in E' as ->.
        destruct (str_eqb k k') eqn:E''; [| reflexivity].
        apply str_eqb_eq in E'' as ->. rewrite str_eqb_refl in E. discriminate.
  - induction d as [|[k0 v0] d IH]; cbn.
    + reflexivity.
    + destruct (str_eqb k0 k) eqn:E; cbn.
      * apply str_eqb_eq in E as ->.
        rewrite bool_decide_eq_true_2 by (left). reflexivity.
      * rewrite IH. apply str_eqb_neq in E.
        destruct (bool_decide (k ∈ map fst d)) eqn:Hd.
        -- rewrite bool_decide_eq_true_2; [reflexivity |].
           right. apply bool_decide_eq_true in Hd. exact Hd.
        -- rewrite bool_decide_eq_false_2; [reflexivity |].
           apply bool_decide_eq_false in Hd.
           intros Hin. apply elem_of_cons in Hin as [-> | Hin]; tauto.
Qed.

(** The dict of a run, as a list that is written out. *)
Ltac resolve_root :=
  try match goal with
      | H : root_resolved _ _ _ |- _ => destruct H
      end.

Ltac shape_of_dict :=
  unfold export_env_shapes;
  lazymatch goal with
  | |- exists roots sources, ?D = _ /\ _ =>
      lazymatch D with
      | [] => exists [], []
      | [(lit "VCPKG_ROOT", ?v)] => exists [(lit "VCPKG_ROOT", v)], []
      | [(lit "VCPKG_ROOT", ?v); ?s] => exists [(lit "VCPKG_ROOT", v)], [s]
      | [?s] => exists [], [s]
      end
  end;
  split; [reflexivity |]; split;
  [ first
      [ left; reflexivity
      | right;
        match goal with
        | Hr : environ _ !! lit "VCPKG_ROOT" = None,
          Hv : environ _ !! lit "VCPKG_INSTALLATION_ROOT" = Some ?v |- _ =>
            exists v; exact (conj Hr (conj Hv eq_refl))
        end ]
  | first
      [ left; reflexivity
      | right; left; reflexivity
      | right; right;
        match goal with
        | Ho : environ _ !! lit "VCPKG_PRIMARY_NUGET_OWNER" = Some ?o |- _ =>
            exists o; exact (conj Ho eq_refl)
        end ] ].

(** X4: whatever the run, [export_env] holds at most two items: the root
    variable, first, and only with the value of the fallback when the primary
    variable is unset; then the binary-cache variable, with the fixed string
    or with the fixed string followed by the read-only segment of the owner. *)
Theorem exported_variables {W} (os : OS W) (proc : Process) (w : W) :
  export_env_shapes proc (exported os proc w).
Proof.
  all_runs os proc w HA.
  all: clear HA; resolve_root.
  all: try match goal with d' := _ |- _ => subst d' end.
  all: read_dict.
  all: shape_of_dict.
Qed.

(** X5: a run that returns has printed on standard output exactly the
    lines of [export_env], in order, has the binary-cache variable among
    them, and has set the API key of the primary feed. *)
Theorem returned_run_output {W} (os : OS W) (proc : Process) (w : W) :
  outcome os proc w = inl tt ->
  printed Stdout (events os proc w)
  = map (fun '(var, val) => export_line proc var val) (exported os proc w)
  /\ (exists value, dict_getitem binary_sources (exported os proc w) = Some value)
  /\ api_key_set (events os proc w).
Proof.
  all_runs os proc w HA.
  all: clear HA; intros Hdone; try discriminate Hdone.
  all: try match goal with d' := _ |- _ => subst d' end.
  all: read_trace.
  all: rewrite (proj1 (printed_export_events proc _)).
  all: split; [reflexivity |].
  all: split; [eexists; rewrite dict_get_set; reflexivity |].
  all: lazymatch goal with
       | |- api_key_set ?T =>
           lazymatch T with
           | context [ESpawn SetApiKey CheckCall ?a ?c (Exited 0 ?o)] =>
               exists a, c, o; in_trace
           end
       end.
Qed.

(** X6: when the primary root variable is set it wins over the fallback,
    set or not: the root variable is never put in [export_env], and every
    path looked up, every command path and every working directory lies in
    the directory the primary variable names. *)
Theorem primary_root_preferred {W} (os : OS W) (proc : Process) (w : W)
    (r : str) :
  environ proc !! lit "VCPKG_ROOT" = Some r ->
  dict_getitem (lit "VCPKG_ROOT") (exported os proc w) = None
  /\ Forall (rooted_at (PathOf r)) (events os proc w).
Proof.
  intros Hroot.
  all_runs os proc w HA.
  all: clear HA.
  all: try match goal with
       | H : environ _ !! lit "VCPKG_ROOT" = None |- _ =>
           rewrite Hroot in H; discriminate H
       end.
  all: match goal with
       | H : root_resolved _ _ _ |- _ =>
           destruct H as [? Hr | ? Hr Hv];
           [ rewrite Hroot in Hr; injection Hr as <-
           | rewrite Hroot in Hr; discriminate Hr ]
       end.
  all: try match goal with d' := _ |- _ => subst d' end.
  all: split; [read_dict; reflexivity |].
  all: solve [all_rooted].
Qed.

Ltac bootstrap_facts :=
  refine (conj eq_refl (conj eq_refl (conj _ (conj _ _))));
  [ in_trace | in_trace | ];
  let Hf := fresh "Hf" in
  intros ? Hf;
  first [ discriminate Hf
        | match goal with
          | H : fatal ?r = Some ?e |- _ => rewrite H in Hf; injection Hf as <-
          end;
          refine (conj eq_refl _); read_trace; reflexivity ].

(** X7: the bootstrap script is run only after the tool was looked up and
    not found and the script was looked up and found, both in the working
    directory of the command, with the file names of the platform; it is run
    by [check_call] with the script as its only argument, and when it fails
    the run ends there with its exception.  When the first look-up finds the
    tool, the bootstrap script is not run. *)
Theorem bootstrap_when_tool_missing {W} (os : OS W) (proc : Process) (w : W) :
  (forall api argv cwd res,
     In (ESpawn Bootstrap api argv cwd res) (events os proc w) ->
     api = CheckCall
     /\ argv = [APath (PathJoin cwd (lit "bootstrap-vcpkg"
                                      ++ if win32 proc then lit ".bat" else lit ".sh"))]
     /\ In (EExists (PathJoin cwd (lit "vcpkg"
                                   ++ if win32 proc then lit ".exe" else lit "")) false)
           (events os proc w)
     /\ In (EExists (PathJoin cwd (lit "bootstrap-vcpkg"
                                   ++ if win32 proc then lit ".bat" else lit ".sh")) true)
           (events os proc w)
     /\ forall e, fatal res = Some e ->
                  outcome os proc w = inr e /\ spawned (events os proc w) = [Bootstrap])
  /\ (forall p, head (events os proc w) = Some (EExists p true) ->
      Bootstrap ∉ spawned (events os proc w)).
Proof.
  all_runs os proc w HA.
  all: clear HA; resolve_root.
  all: unfold vcpkg_exe_of, bootstrap_of.
  all: split.
  all: try (intros p Hhead; cbn in Hhead; try discriminate Hhead;
            read_trace; rewrite list_elem_of_In; cbn; intuition discriminate).
  all: try (intros ? ? ? ? Hin; each_event Hin;
            first [ discriminate Hin | injection Hin; clear Hin; intros; subst ];
            bootstrap_facts).
Qed.

Lemma bootstrap_when_tool_missing_witness :
  let root := PathOf (lit "/opt/vcpkg") in
  In (ESpawn Bootstrap CheckCall
        [APath (PathJoin root (lit "bootstrap-vcpkg.sh"))] root
        (Exited 0 (nuget_path ++ nl)))
     (events os_bootstrap linux_primary tt)
  /\ In (EExists (PathJoin root (lit "vcpkg")) false)
        (events os_bootstrap linux_primary tt)
  /\ In (EExists (PathJoin root (lit "bootstrap-vcpkg.sh")) true)
        (events os_bootstrap linux_primary tt).
Proof.
  intros root.
  assert (Hin : In (ESpawn Bootstrap CheckCall
                      [APath (PathJoin root (lit "bootstrap-vcpkg.sh"))] root
                      (Exited 0 (nuget_path ++ nl)))
                   (events os_bootstrap linux_primary tt)).
  { apply (nth_error_In _ 2). vm_compute. reflexivity. }
  split; [exact Hin |].
  destruct (proj1 (bootstrap_when_tool_missing os_bootstrap linux_primary tt)
              _ _ _ _ Hin) as (_ & _ & Htool & Hscript & _).
  exact (conj Htool Hscript).
Defined.

Ltac client_of_command :=
  lazymatch goal with
  | Hl : getitem_last (splitlines ?out) = inl ?exe |- _ =>
      exists out, exe;
      refine (conj _ (conj Hl _));
      [ unfold fetch_argv, vcpkg_exe_of; in_trace
      | unfold runtime_prefix, sources_argv, setapikey_argv;
        match goal with
        | Hw : win32 _ = _ |- _ => rewrite Hw
        end;
        cbn [app]; eexists; reflexivity ]
  end.

(** X8: every command of the NuGet client starts with [mono] off Windows
    and with nothing on Windows, followed by the client: the last line of the
    output of [vcpkg fetch nuget], which was run in the same directory and
    exited with 0. *)
Theorem client_of_every_command {W} (os : OS W) (proc : Process) (w : W)
    (site : Site) (api : Api) (argv : list arg) (cwd : Path)
    (res : proc_result) :
  In (ESpawn site api argv cwd res) (events os proc w) ->
  nuget_site site = true ->
  exists out nuget_exe,
    In (ESpawn FetchNuget CheckOutput
          [APath (PathJoin cwd (lit "vcpkg" ++ if win32 proc then lit ".exe" else lit ""));
           AStr (lit "fetch"); AStr (lit "nuget")]
          cwd (Exited 0 out))
       (events os proc w)
    /\ getitem_last (splitlines out) = inl nuget_exe
    /\ exists rest, argv = runtime_prefix proc ++ AStr nuget_exe :: rest.
Proof.
  revert site api argv cwd res.
  all_runs os proc w HA.
  all: clear HA; intros ? ? ? ? ? Hin Hsite; each_event Hin.
  all: first [ discriminate Hin | injection Hin; clear Hin; intros; subst ].
  all: try discriminate Hsite.
  all: client_of_command.
Qed.

(** X9: the search path is consulted only off Windows and only for
    [mono]; when the answer is empty the run ends through [fail] with the
    diagnostic about [mono]. *)
Theorem runtime_lookup {W} (os : OS W) (proc : Process) (w : W)
    (name : str) (found : option str) :
  In (EWhich name found) (events os proc w) ->
  win32 proc = false /\ name = lit "mono"
  /\ (truthy found = false ->
      outcome os proc w = inr (SystemExit 1)
      /\ printed Stderr (events os proc w) = [msg_mono]).
Proof.
  revert name found.
  all_runs os proc w HA.
  all: clear HA; intros ? ? Hin; each_event Hin.
  all: first [ discriminate Hin | injection Hin; clear Hin; intros; subst ].
  all: refine (conj _ (conj eq_refl _)); [assumption |].
  all: intros Hnone.
  all: first [ congruence | split; [reflexivity | read_trace; reflexivity] ].
Qed.

Lemma client_of_every_command_witness :
  let root := PathOf (lit "/opt/vcpkg") in
  let argv := setapikey_argv [AStr (lit "mono"); AStr nuget_path] (lit "ghp_1")
                (feed_url (lit "octocat")) in
  In (ESpawn SetApiKey CheckCall argv root (Exited 0 []))
     (events os_fetch_verbose linux_primary tt)
  /\ nuget_site SetApiKey = true
  /\ exists out nuget_exe,
       In (ESpawn FetchNuget CheckOutput
             [APath (PathJoin root (lit "vcpkg")); AStr (lit "fetch");
              AStr (lit "nuget")] root (Exited 0 out))
          (events os_fetch_verbose linux_primary tt)
       /\ getitem_last (splitlines out) = inl nuget_exe
       /\ exists rest, argv = runtime_prefix linux_primary ++ AStr nuget_exe :: rest.
Proof.
  intros root argv.
  assert (Hin : In (ESpawn SetApiKey CheckCall argv root (Exited 0 []))
                   (events os_fetch_verbose linux_primary tt)).
  { apply (nth_error_In _ 5). vm_compute. reflexivity. }
  split; [exact Hin |]. split; [reflexivity |].
  exact (client_of_every_command os_fetch_verbose linux_primary tt
           _ _ _ _ _ Hin eq_refl).
Defined.

Lemma runtime_lookup_witness :
  In (EWhich (lit "mono") None) (events os_no_mono linux_primary tt)
  /\ win32 linux_primary = false
  /\ (truthy (@None str) = false ->
      outcome os_no_mono linux_primary tt = inr (SystemExit 1)
      /\ printed Stderr (events os_no_mono linux_primary tt) = [msg_mono]).
Proof.
  assert (Hin : In (EWhich (lit "mono") None) (events os_no_mono linux_primary tt)).
  { apply (nth_error_In _ 1). vm_compute. reflexivity. }
  split; [exact Hin |].
  destruct (runtime_lookup os_no_mono linux_primary tt _ _ Hin)
    as (Hwin & _ & Hfail).
  exact (conj Hwin Hfail).
Defined.

(** ** [splitlines] and the last line *)

Lemma splitlines_from_boundary (cur : str) (c : char) (rest : str) :
  is_linebreak c = true ->
  splitlines_from cur (c :: rest)
  = rev cur :: splitlines_from [] (after_boundary c rest).
Proof.
  intros Hc. cbn [splitlines_from]. rewrite Hc.
  destruct rest as [|d rest']; [reflexivity |]. cbn [after_boundary].
  destruct ((c =? 13) && (d =? 10))%N; reflexivity.
Qed.

Lemma splitlines_from_inside (cur : str) (c : char) (rest : str) :
  is_linebreak c = false ->
  splitlines_from cur (c :: rest) = splitlines_from (c :: cur) rest.
Proof. intros Hc. cbn [splitlines_from]. rewrite Hc. reflexivity. Qed.

Lemma splitlines_from_line (l cur : str) :
  one_line l -> splitlines_from cur (l ++ [10%N]) = [rev cur ++ l].
Proof.
  intros Hl. revert cur. induction Hl as [|c l Hc Hl IH]; intros cur.
  - cbn. rewrite app_nil_r. reflexivity.
  - cbn [app]. rewrite splitlines_from_inside by exact Hc.
    rewrite IH. cbn [rev]. rewrite <- app_assoc. reflexivity.
Qed.

Lemma splitlines_from_open (l cur : str) :
  one_line l -> l <> [] \/ cur <> [] -> splitlines_from cur l = [rev cur ++ l].
Proof.
  intros Hl. revert cur. induction Hl as [|c l Hc Hl IH]; intros cur Hne.
  - destruct Hne as [Hne | Hne]; [contradiction |].
    cbn. rewrite app_nil_r. destruct cur; [contradiction | reflexivity].
  - rewrite splitlines_from_inside by exact Hc.
    rewrite IH by (right; discriminate).
    cbn [rev]. rewrite <- app_assoc. reflexivity.
Qed.

(** Whatever comes before a line feed, the lines of what follows it come
    last. *)
Lemma splitlines_from_last (n : nat) (pre body x cur : str) :
  (length pre <= n)%nat -> splitlines_from [] body = [x] ->
  exists ls, splitlines_from cur (pre ++ 10%N :: body) = ls ++ [x].
Proof.
  intros Hn Hbody. revert pre cur Hn.
  induction n as [|n IH]; intros pre cur Hn.
  - destruct pre; [| cbn in Hn; lia]. cbn [app].
    rewrite splitlines_from_boundary by reflexivity.
    exists [rev cur].
    replace (after_boundary 10 body) with body by (destruct body; reflexivity).
    rewrite Hbody. reflexivity.
  - destruct pre as [|c pre'].
    { apply IH. cbn. lia. }
    cbn [app]. cbn [length] in Hn.
    destruct (is_linebreak c) eqn:Hc.
    + rewrite splitlines_from_boundary by exact Hc.
      assert (Hrest : exists ls, splitlines_from []
                (after_boundary c (pre' ++ 10%N :: body)) = ls ++ [x]).
      { destruct pre' as [|d pre'']; cbn [app after_boundary].
        - destruct ((c =? 13) && (10 =? 10))%N.
          + exists []. rewrite Hbody. reflexivity.
          + apply (IH []). cbn. lia.
        - destruct ((c =? 13) && (d =? 10))%N.
          + apply IH. cbn in Hn. lia.
          + apply (IH (d :: pre'')). cbn in *. lia. }
      destruct Hrest as [ls Hls]. exists (rev cur :: ls). rewrite Hls. reflexivity.
    + rewrite splitlines_from_inside by exact Hc. apply IH. lia.
Qed.

Lemma getitem_last_snoc {A} (l : list A) (x : A) :
  getitem_last (l ++ [x]) = inl x.
Proof.
  induction l as [|y l IH]; [reflexivity |].
  cbn [app getitem_last]. destruct (l ++ [x]) eqn:E; [| exact IH].
  destruct l; discriminate E.
Qed.

(** X10: [splitlines()[-1]] on a text that ends with a line without line
    boundaries and a closing line feed gives that line, whatever comes before
    it; so it does without the closing line feed when the line is not
    empty. *)
Theorem last_line_of_output (pre l : str) :
  one_line l ->
  getitem_last (splitlines (l ++ [10%N])) = inl l
  /\ getitem_last (splitlines (pre ++ 10%N :: l ++ [10%N])) = inl l
  /\ (l <> [] -> getitem_last (splitlines (pre ++ 10%N :: l)) = inl l).
Proof.
  intros Hl. unfold splitlines. split; [| split].
  - rewrite splitlines_from_line by exact Hl. reflexivity.
  - destruct (splitlines_from_last (length pre) pre (l ++ [10%N]) l [] (le_n _))
      as [ls ->]; [apply (splitlines_from_line l []); exact Hl |].
    apply getitem_last_snoc.
  - intros Hne.
    destruct (splitlines_from_last (length pre) pre l l [] (le_n _))
      as [ls ->]; [apply (splitlines_from_open l []); [exact Hl | left; exact Hne] |].
    apply getitem_last_snoc.
Qed.

Lemma last_line_of_output_witness :
  one_line nuget_path
  /\ getitem_last (splitlines (lit "Downloading nuget..." ++ 10%N :: nuget_path ++ [10%N]))
     = inl nuget_path.
Proof.
  assert (Hl : one_line nuget_path).
  { unfold one_line. vm_compute. repeat constructor. }
  split; [exact Hl |].
  exact (proj1 (proj2 (last_line_of_output (lit "Downloading nuget...") nuget_path Hl))).
Defined.

Lemma secondary_calls_export_events (proc : Process) (d : dict) :
  List.filter is_secondary (export_events proc d) = [].
Proof. induction d as [|[var val] d IH]; [reflexivity | exact IH]. Qed.

Ltac read_secondary :=
  unfold secondary_calls;
  repeat rewrite List.filter_app;
  rewrite ?secondary_calls_export_events;
  cbn [List.filter is_secondary app];
  rewrite ?app_nil_r.

(** Two readings of one variable give one value. *)
Ltac same_environ :=
  repeat match goal with
  | H1 : environ ?p !! ?k = Some ?a, H2 : environ ?p !! ?k = Some ?b |- _ =>
      rewrite H1 in H2; injection H2; clear H2; intros; subst
  end.

(** X11: when the run returns with a non-empty secondary token and an
    owner other than the username, the secondary feed was registered by
    [sources add] then [sources update], with the feed of the owner as source,
    the owner as name, the username as user and the secondary token as
    password, whatever [sources add] returned; the binary-cache variable ends
    with the read-only segment of the owner, and its export line is the last
    line printed. *)
Theorem secondary_feed_registered {W} (os : OS W) (proc : Process) (w : W)
    (user owner ptoken : str) :
  outcome os proc w = inl tt ->
  environ proc !! lit "VCPKG_NUGET_USER" = Some user ->
  environ proc !! lit "VCPKG_PRIMARY_NUGET_OWNER" = Some owner ->
  environ proc !! lit "VCPKG_PRIMARY_NUGET_TOKEN" = Some ptoken ->
  owner <> [] -> ptoken <> [] -> owner <> user ->
  dict_getitem binary_sources (exported os proc w)
  = Some (template ++ lit ";nuget," ++ owner ++ lit ",read")
  /\ last (printed Stdout (events os proc w))
     = Some (export_line proc binary_sources
               (template ++ lit ";nuget," ++ owner ++ lit ",read"))
  /\ exists nuget root rc out1 out2,
       secondary_calls (events os proc w)
       = [ESpawn SecondaryAdd Run
            (nuget ++ [AStr (lit "sources"); AStr (lit "add");
                       AStr (lit "-source");
                       AStr (lit "https://nuget.pkg.github.com/" ++ owner
                             ++ lit "/index.json");
                       AStr (lit "-storepasswordincleartext");
                       AStr (lit "-name"); AStr owner;
                       AStr (lit "-username"); AStr user;
                       AStr (lit "-password"); AStr ptoken])
            root (Exited rc out1);
          ESpawn SecondaryUpdate CheckCall
            (nuget ++ [AStr (lit "sources"); AStr (lit "update");
                       AStr (lit "-source");
                       AStr (lit "https://nuget.pkg.github.com/" ++ owner
                             ++ lit "/index.json");
                       AStr (lit "-storepasswordincleartext");
                       AStr (lit "-name"); AStr owner;
                       AStr (lit "-username"); AStr user;
                       AStr (lit "-password"); AStr ptoken])
            root (Exited 0 out2)].
Proof.
  intros Hdone Huser Howner Hptoken Ho Hp Hne. revert Hdone.
  all_runs os proc w HA.
  all: clear HA; intros Hdone; try discriminate Hdone; clear Hdone.
  all: try match goal with
       | H : truthy (environ _ !! lit "VCPKG_PRIMARY_NUGET_TOKEN") = false |- _ =>
           rewrite Hptoken in H; destruct ptoken; [contradiction | discriminate H]
       end.
  all: same_environ.
  all: try contradiction.
  all: resolve_root.
  all: match goal with d' := _ |- _ => subst d' end.
  all: split; [rewrite dict_get_set; reflexivity |].
  all: split;
         [ read_trace; rewrite (proj1 (printed_export_events proc _));
           read_dict; reflexivity |].
  all: read_secondary.
  all: lazymatch goal with
       | |- context [ESpawn SecondaryAdd Run (sources_argv ?n _ _ _ _ _) ?root
                       (Exited ?rc ?o1)] =>
           lazymatch goal with
           | |- context [ESpawn SecondaryUpdate CheckCall _ _ (Exited 0 ?o2)] =>
               exists n, root, rc, o1, o2; reflexivity
           end
       end.
Qed.

Lemma secondary_feed_registered_witness :
  outcome os_ok linux_secondary tt = inl tt
  /\ dict_getitem binary_sources (exported os_ok linux_secondary tt)
     = Some (lit "clear;nuget,GitHub,readwrite;nugettimeout,3601;nuget,upstream,read")
  /\ last (printed Stdout (events os_ok linux_secondary tt))
     = Some (lit "export VCPKG_BINARY_SOURCES='clear;nuget,GitHub,readwrite;nugettimeout,3601;nuget,upstream,read'").
Proof.
  assert (Hdone : outcome os_ok linux_secondary tt = inl tt)
    by (vm_compute; reflexivity).
  split; [exact Hdone |].
  destruct (secondary_feed_registered os_ok linux_secondary tt
              (lit "octocat") (lit "upstream") (lit "ghp_2") Hdone)
    as (Hdict & Hlast & _);
    try (vm_compute; reflexivity); try (vm_compute; discriminate).
  exact (conj Hdict Hlast).
Defined.

Ltac in_order :=
  unfold all_sites;
  repeat first [ apply sublist_nil | apply sublist_skip | apply sublist_cons ].

(** X12: the commands of a run are a subsequence of the seven commands
    of the script in program order: none is run twice, none out of order.  A
    run that returns has fetched the client and registered the primary feed,
    after at most the bootstrap script and before at most the two commands of
    the secondary feed. *)
Theorem commands_in_program_order {W} (os : OS W) (proc : Process) (w : W) :
  sublist (spawned (events os proc w)) all_sites
  /\ (outcome os proc w = inl tt ->
      exists rest,
        spawned (events os proc w)
        = rest ++ [FetchNuget; PrimaryAdd; PrimaryUpdate; SetApiKey]
        \/ spawned (events os proc w)
           = rest ++ [FetchNuget; PrimaryAdd; PrimaryUpdate; SetApiKey;
                      SecondaryAdd; SecondaryUpdate]).
Proof.
  all_runs os proc w HA.
  all: clear HA; read_trace.
  all: split; [solve [in_order] |].
  all: intros Hdone; try discriminate Hdone.
  all: first [ exists []; left; reflexivity
             | exists []; right; reflexivity
             | exists [Bootstrap]; left; reflexivity
             | exists [Bootstrap]; right; reflexivity ].
Qed.

(** A line of the error stream that is not the one looked for. *)
Ltac other_message :=
  let Hm := fresh "Hm" in
  intros Hm; cbn [In] in Hm;
  repeat match type of Hm with
  | _ \/ _ => destruct Hm as [Hm | Hm]
  | False => destruct Hm
  end;
  revert Hm; vm_compute; discriminate.

(** X13: with the secondary token unset or empty the owner variable is
    never looked at: no command of the secondary feed is run, neither the
    diagnostic about the owner nor the note about the same feed is printed,
    and a run that returns exports the fixed string, its export line being
    the last thing the script does. *)
Theorem secondary_feed_optional {W} (os : OS W) (proc : Process) (w : W) :
  truthy (environ proc !! lit "VCPKG_PRIMARY_NUGET_TOKEN") = false ->
  secondary_calls (events os proc w) = []
  /\ ~ In msg_owner (printed Stderr (events os proc w))
  /\ ~ In msg_same_feed (printed Stderr (events os proc w))
  /\ (outcome os proc w = inl tt ->
      dict_getitem binary_sources (exported os proc w) = Some template
      /\ last (printed Stdout (events os proc w))
         = Some (export_line proc binary_sources template)
      /\ last (events os proc w)
         = Some (EPrint Stdout (export_line proc binary_sources template))).
Proof.
  intros Hnone.
  all_runs os proc w HA.
  all: clear HA.
  all: try match goal with
       | H : truthy (environ _ !! lit "VCPKG_PRIMARY_NUGET_TOKEN") = true |- _ =>
           rewrite Hnone in H; discriminate H
       | H : environ _ !! lit "VCPKG_PRIMARY_NUGET_TOKEN" = Some ?p,
         Hp : ?p <> [] |- _ =>
           rewrite H in Hnone; destruct p; [contradiction | discriminate Hnone]
       end.
  all: resolve_root.
  all: split; [read_secondary; reflexivity |].
  all: split; [read_trace; rewrite ?(proj2 (printed_export_events proc _));
                other_message |].
  all: split; [read_trace; rewrite ?(proj2 (printed_export_events proc _));
                other_message |].
  all: intros Hdone; try discriminate Hdone.
  all: split; [rewrite dict_get_set; reflexivity |].
  all: split;
         [ read_trace; rewrite (proj1 (printed_export_events proc _));
           read_dict; reflexivity |].
  all: unfold export_events; read_dict; reflexivity.
Qed.

Lemma secondary_feed_optional_witness :
  truthy (environ linux_same_owner !! lit "VCPKG_PRIMARY_NUGET_TOKEN") = false
  /\ environ linux_same_owner !! lit "VCPKG_PRIMARY_NUGET_OWNER" = Some (lit "octocat")
  /\ outcome os_ok linux_same_owner tt = inl tt
  /\ secondary_calls (events os_ok linux_same_owner tt) = []
  /\ dict_getitem binary_sources (exported os_ok linux_same_owner tt) = Some template.
Proof.
  assert (Hnone : truthy (environ linux_same_owner !! lit "VCPKG_PRIMARY_NUGET_TOKEN")
                  = false) by (vm_compute; reflexivity).
  assert (Hdone : outcome os_ok linux_same_owner tt = inl tt)
    by (vm_compute; reflexivity).
  destruct (secondary_feed_optional os_ok linux_same_owner tt Hnone)
    as (Hcalls & _ & _ & Hout).
  refine (conj Hnone (conj _ (conj Hdone (conj Hcalls (proj1 (Hout Hdone)))))).
  vm_compute. reflexivity.
Defined.

Lemma returned_run_output_witness :
  outcome os_ok windows_primary tt = inl tt
  /\ printed Stdout (events os_ok windows_primary tt)
     = [lit "$env:VCPKG_BINARY_SOURCES = 'clear;nuget,GitHub,readwrite;nugettimeout,3601'"]
  /\ api_key_set (events os_ok windows_primary tt).
Proof.
  assert (Hdone : outcome os_ok windows_primary tt = inl tt)
    by (vm_compute; reflexivity).
  destruct (returned_run_output os_ok windows_primary tt Hdone)
    as (Hout & _ & Hkey).
  refine (conj Hdone (conj _ Hkey)).
  rewrite Hout. vm_compute. reflexivity.
Defined.

Lemma primary_root_preferred_witness :
  environ linux_both_roots !! lit "VCPKG_ROOT" = Some (lit "/opt/vcpkg")
  /\ environ linux_both_roots !! lit "VCPKG_INSTALLATION_ROOT"
     = Some (lit "/usr/local/share/vcpkg")
  /\ dict_getitem (lit "VCPKG_ROOT") (exported os_ok linux_both_roots tt) = None
  /\ Forall (rooted_at (PathOf (lit "/opt/vcpkg"))) (events os_ok linux_both_roots tt).
Proof.
  assert (Hroot : environ linux_both_roots !! lit "VCPKG_ROOT"
                  = Some (lit "/opt/vcpkg")) by (vm_compute; reflexivity).
  refine (conj Hroot (conj _ (primary_root_preferred os_ok linux_both_roots tt _ Hroot))).
  vm_compute. reflexivity.
Defined.

(** The trace of a run that ended in [fail], split at the call. *)
Ltac split_at_fail :=
  repeat rewrite app_assoc;
  lazymatch goal with
  | |- exists before msg, ?t ++ fail_events _ ?m = _ /\ _ => exists t, m
  | |- exists before msg, fail_events _ ?m = _ /\ _ => exists [], m
  end.

(** X14: a run that ends with [SystemExit] ends in [fail]: its last two
    events are the diagnostic on the error stream and the shell statement on
    standard output, nothing was printed before them, and the diagnostic is
    one of the six of the script. *)
Theorem fail_ends_the_run {W} (os : OS W) (proc : Process) (w : W) (code : Z) :
  outcome os proc w = inr (SystemExit code) ->
  exists before msg,
    events os proc w
    = before ++ [EPrint Stderr msg; EPrint Stdout (shell_statement proc)]
    /\ printed Stdout before = []
    /\ printed Stderr before = []
    /\ diagnostic os msg.
Proof.
  revert code.
  all_runs os proc w HA.
  all: clear HA; intros code Hcode.
  all: try match goal with
       | H : fatal ?res = Some ?e |- _ =>
           destruct (fatal_not_exit _ _ H) as [(? & -> & _) | ->]
       end.
  all: try discriminate Hcode.
  all: split_at_fail.
  all: split; [reflexivity |].
  all: split; [read_trace; reflexivity |].
  all: split; [read_trace; reflexivity | diagnosed].
Qed.

Lemma fail_ends_the_run_witness :
  outcome os_ok linux_no_owner tt = inr (SystemExit 1)
  /\ exists before msg,
       events os_ok linux_no_owner tt
       = before ++ [EPrint Stderr msg; EPrint Stdout (shell_statement linux_no_owner)]
       /\ printed Stdout before = []
       /\ printed Stderr before = []
       /\ diagnostic os_ok msg.
Proof.
  assert (Hcode : outcome os_ok linux_no_owner tt = inr (SystemExit 1))
    by (vm_compute; reflexivity).
  exact (conj Hcode (fail_ends_the_run os_ok linux_no_owner tt 1 Hcode)).
Defined.

(** X15: when the output of [vcpkg fetch nuget] is not valid UTF-8, the run
    ends there with an uncaught [UnicodeDecodeError], whatever the command
    exited with: the exit status is 1, the script has printed nothing and
    the binary-cache variable is not in [export_env].  No other command has
    its output decoded. *)
Theorem undecodable_fetch_output {W} (os : OS W) (proc : Process) (w : W)
    (site : Site) (argv : list arg) (cwd : Path) :
  In (EGarbled site argv cwd) (events os proc w) ->
  site = FetchNuget
  /\ outcome os proc w = inr UnicodeDecodeError
  /\ exit_status (outcome os proc w) = 1
  /\ last (events os proc w) = Some (EGarbled site argv cwd)
  /\ printed Stdout (events os proc w) = []
  /\ printed Stderr (events os proc w) = []
  /\ dict_getitem binary_sources (exported os proc w) = None.
Proof.
  revert site argv cwd.
  all_runs os proc w HA.
  all: clear HA; intros ? ? ? Hin; each_event Hin.
  all: first [ discriminate Hin | injection Hin; clear Hin; intros; subst ].
  all: resolve_root.
  all: repeat split; try reflexivity.
  all: try (read_trace; reflexivity).
Qed.

Lemma undecodable_fetch_output_witness :
  In (EGarbled FetchNuget (fetch_argv linux_primary (PathOf (lit "/opt/vcpkg")))
        (PathOf (lit "/opt/vcpkg")))
     (events os_fetch_garbled linux_primary tt)
  /\ outcome os_fetch_garbled linux_primary tt = inr UnicodeDecodeError
  /\ exit_status (outcome os_fetch_garbled linux_primary tt) = 1.
Proof.
  assert (Hin : In (EGarbled FetchNuget
                      (fetch_argv linux_primary (PathOf (lit "/opt/vcpkg")))
                      (PathOf (lit "/opt/vcpkg")))
                   (events os_fetch_garbled linux_primary tt)).
  { apply (nth_error_In _ 2). vm_compute. reflexivity. }
  destruct (undecodable_fetch_output os_fetch_garbled linux_primary tt _ _ _ Hin)
    as (_ & Hout & Hexit & _).
  exact (conj Hin (conj Hout Hexit)).
Defined.

(** X16: when a look-up of the tool or of the bootstrap script raises, the
    run ends there with an uncaught [OSError]: the exit status is 1, no
    command has been run and the script has printed nothing. *)
Theorem failed_lookup_ends_run {W} (os : OS W) (proc : Process) (w : W)
    (p : Path) :
  In (EExistsFails p) (events os proc w) ->
  outcome os proc w = inr OSError
  /\ exit_status (outcome os proc w) = 1
  /\ last (events os proc w) = Some (EExistsFails p)
  /\ spawned (events os proc w) = []
  /\ printed Stdout (events os proc w) = []
  /\ printed Stderr (events os proc w) = [].
Proof.
  revert p.
  all_runs os proc w HA.
  all: clear HA; intros ? Hin; each_event Hin.
  all: first [ discriminate Hin | injection Hin; clear Hin; intros; subst ].
  all: repeat split; reflexivity.
Qed.

Lemma failed_lookup_ends_run_witness :
  In (EExistsFails (PathJoin (PathOf (lit "/opt/vcpkg")) (lit "vcpkg")))
     (events os_lookup_denied linux_primary tt)
  /\ outcome os_lookup_denied linux_primary tt = inr OSError
  /\ spawned (events os_lookup_denied linux_primary tt) = [].
Proof.
  assert (Hin : In (EExistsFails (PathJoin (PathOf (lit "/opt/vcpkg")) (lit "vcpkg")))
                   (events os_lookup_denied linux_primary tt)).
  { apply (nth_error_In _ 0). vm_compute. reflexivity. }
  destruct (failed_lookup_ends_run os_lookup_denied linux_primary tt _ Hin)
    as (Hout & _ & _ & Hnone & _).
  exact (conj Hin (conj Hout Hnone)).
Defined.
